(** * Deep Researcher front end: the interaction layer of [src/App.tsx]

    A shallow embedding of the [App] component: its React state, its event
    handlers (each [async] handler cut at its [await]), the requests that are
    in flight, and the part of [render] that chooses what is shown.

    Conventions.
    - A JavaScript string is the list of its UTF-16 code units, so that
      [.length] is [length] and [.trim()] is [trim] below.
    - A JavaScript [number] is an IEEE-754 double ([PrimFloat.float]).
    - State updates made by one synchronous stretch of a handler are applied
      together (React's batching): such a stretch is one transition.
    - The I/O history of the component is kept most recent first. *)

From Stdlib Require Import List NArith Bool Arith Lia String Ascii PrimFloat.
Import ListNotations.

Set Implicit Arguments.

(** ** Strings *)

Definition code_unit := N.
Definition jsstring := list code_unit.

(** A string literal of the source (all of them are ASCII). *)
Definition lit (s : string) : jsstring :=
  map N_of_ascii (list_ascii_of_string s).

Definition LF : code_unit := 10%N.

(** WhiteSpace and LineTerminator code points of ECMAScript, the ones
    [String.prototype.trim] strips. *)
Definition is_white_space (c : code_unit) : bool :=
  ((9 <=? c) && (c <=? 13) || (c =? 32) || (c =? 160) || (c =? 5760)
   || (8192 <=? c) && (c <=? 8202)
   || (c =? 8232) || (c =? 8233) || (c =? 8239) || (c =? 8287)
   || (c =? 12288) || (c =? 65279))%N.

Fixpoint trimStart (s : jsstring) : jsstring :=
  match s with
  | c :: s' => if is_white_space c then trimStart s' else s
  | [] => []
  end.

Definition trimEnd (s : jsstring) : jsstring := rev (trimStart (rev s)).

Definition trim (s : jsstring) : jsstring := trimEnd (trimStart s).

(** Truthiness of a string: the empty string is the only falsy one. *)
Definition truthy (s : jsstring) : bool :=
  match s with [] => false | _ :: _ => true end.

Fixpoint code_units_eqb (a b : jsstring) : bool :=
  match a, b with
  | [], [] => true
  | x :: a', y :: b' => (x =? y)%N && code_units_eqb a' b'
  | _, _ => false
  end.

Fixpoint startsWith (s p : jsstring) {struct p} : bool :=
  match p, s with
  | [], _ => true
  | x :: p', y :: s' => (x =? y)%N && startsWith s' p'
  | _ :: _, [] => false
  end.

(** [String.prototype.includes]: [sub] occurs somewhere in [s]. *)
Fixpoint includes (s sub : jsstring) : bool :=
  startsWith s sub ||
  match s with
  | [] => false
  | _ :: s' => includes s' sub
  end.

(** [Array.prototype.join] on an array of strings. *)
Fixpoint join (sep : jsstring) (parts : list jsstring) : jsstring :=
  match parts with
  | [] => []
  | [p] => p
  | p :: rest => p ++ sep ++ join sep rest
  end.

(** The lines of a text: [text.split('\n')]. *)
Fixpoint split_lines_aux (cur : jsstring) (s : jsstring) : list jsstring :=
  match s with
  | [] => [rev cur]
  | c :: s' =>
      if (c =? LF)%N then rev cur :: split_lines_aux [] s'
      else split_lines_aux (c :: cur) s'
  end.

Definition split_lines (s : jsstring) : list jsstring := split_lines_aux [] s.

(** ** Data model (the interfaces of App.tsx, lines 6-34) *)

Definition number := float.

Module Source.
Record t := mk {
  title : jsstring;
  content : jsstring;
  relevance_score : number
}.
End Source.

Module ResearchReport.
Record t := mk {
  summary : jsstring;
  key_findings : list jsstring;
  confidence_score : number;
  sources : list Source.t
}.
End ResearchReport.

Module ResearchResult.
Record t := mk {
  success : bool;
  research_report : ResearchReport.t;
  execution_time : number;
  sources_found : number;
  reasoning_steps : number
}.
End ResearchResult.

Module SuggestionItem.
Record t := mk {
  suggested_query : jsstring;
  refinement_type : jsstring;
  rationale : jsstring;
  confidence : number;
  expected_improvement : number
}.
End SuggestionItem.

Module Suggestion.
Record t := mk {
  success : bool;
  suggestions : list SuggestionItem.t
}.
End Suggestion.

(** The body of an [/ingest] response; only [success] is read. *)
Module IngestResponse.
Record t := mk { success : bool }.
End IngestResponse.

(** A browser [File]; the component reads its [name] only. *)
Module File.
Record t := mk { name : jsstring; size : N }.
End File.

(** ** Requests and their outcomes *)

(** The three [axios.post] calls; the constructor stands for the endpoint
    ([/research], [/suggest], [/ingest] under [API_BASE_URL]) and carries the
    request body. *)
Inductive request :=
| Research (query : jsstring) (max_sources : N)
| Suggest (query : jsstring)
| Ingest (files : list File.t).

(** How an awaited [axios.post] ends: the promise is fulfilled with the
    response data (a 2xx answer), or it is rejected (network error or a
    status outside 2xx) and control goes to [catch]. *)
Inductive settled (A : Type) :=
| Fulfilled (data : A)
| Rejected.
Arguments Rejected {A}.

Inductive answer :=
| ResearchAnswer (o : settled ResearchResult.t)
| SuggestAnswer (o : settled Suggestion.t)
| IngestAnswer (o : settled IngestResponse.t).

(** What the component does to the outside, and what reaches it. *)
Inductive io :=
| Posted (r : request)
| Received (r : request) (a : answer)
| Alerted (message : jsstring)
| Logged (message : jsstring)
| TimerSet (ms : N).

(** ** React state (the [useState] hooks, lines 39-46) *)

Record AppState := mkState {
  query : jsstring;
  isLoading : bool;
  results : option ResearchResult.t;
  suggestions : list SuggestionItem.t;
  showSuggestions : bool;
  uploadedFiles : list File.t;
  isUploading : bool;
  uploadSuccess : bool
}.

Definition initial_state : AppState :=
  mkState [] false None [] false [] false false.

(** ** Handlers

    A handler is a state transformer that also emits I/O, in program order. *)

Definition M (A : Type) : Type := AppState -> A * AppState * list io.

Definition ret {A} (a : A) : M A := fun s => (a, s, []).

Definition bind {A B} (m : M A) (k : A -> M B) : M B :=
  fun s =>
    let '(a, s1, out1) := m s in
    let '(b, s2, out2) := k a s1 in
    (b, s2, out1 ++ out2).

Declare Scope handler_scope.
Delimit Scope handler_scope with handler.
Notation "x <- m ;; k" := (bind m (fun x => k))
  (at level 61, m at next level, right associativity) : handler_scope.
Notation "m ;; k" := (bind m (fun _ => k))
  (at level 61, right associativity) : handler_scope.
Open Scope handler_scope.

Definition emit (e : io) : M unit := fun s => (tt, s, [e]).
Definition read {A} (f : AppState -> A) : M A := fun s => (f s, s, []).
Definition update (f : AppState -> AppState) : M unit := fun s => (tt, f s, []).

Definition setQuery v : M unit := update (fun s =>
  mkState v (isLoading s) (results s) (suggestions s) (showSuggestions s)
          (uploadedFiles s) (isUploading s) (uploadSuccess s)).
Definition setIsLoading v : M unit := update (fun s =>
  mkState (query s) v (results s) (suggestions s) (showSuggestions s)
          (uploadedFiles s) (isUploading s) (uploadSuccess s)).
Definition setResults v : M unit := update (fun s =>
  mkState (query s) (isLoading s) v (suggestions s) (showSuggestions s)
          (uploadedFiles s) (isUploading s) (uploadSuccess s)).
Definition setSuggestions v : M unit := update (fun s =>
  mkState (query s) (isLoading s) (results s) v (showSuggestions s)
          (uploadedFiles s) (isUploading s) (uploadSuccess s)).
Definition setShowSuggestions v : M unit := update (fun s =>
  mkState (query s) (isLoading s) (results s) (suggestions s) v
          (uploadedFiles s) (isUploading s) (uploadSuccess s)).
(** [setUploadedFiles] is only called with an updater function. *)
Definition setUploadedFiles (f : list File.t -> list File.t) : M unit :=
  update (fun s =>
  mkState (query s) (isLoading s) (results s) (suggestions s) (showSuggestions s)
          (f (uploadedFiles s)) (isUploading s) (uploadSuccess s)).
Definition setIsUploading v : M unit := update (fun s =>
  mkState (query s) (isLoading s) (results s) (suggestions s) (showSuggestions s)
          (uploadedFiles s) v (uploadSuccess s)).
Definition setUploadSuccess v : M unit := update (fun s =>
  mkState (query s) (isLoading s) (results s) (suggestions s) (showSuggestions s)
          (uploadedFiles s) (isUploading s) v).

Definition axios_post (r : request) : M unit := emit (Posted r).
Definition alert (message : string) : M unit := emit (Alerted (lit message)).
Definition console_error (message : string) : M unit := emit (Logged (lit message)).
Definition setTimeout (ms : N) : M unit := emit (TimerSet ms).

(** [handleSearch] (lines 49-70), up to its [await].  [None] is the call
    without argument, where [searchQuery] defaults to [query]. *)
Definition handleSearch (arg : option jsstring) : M unit :=
  searchQuery <- match arg with
                 | Some text => ret text
                 | None => read query
                 end ;;
  if negb (truthy (trim searchQuery)) then ret tt
  else
    setIsLoading true ;;
    setResults None ;;
    setSuggestions [] ;;
    setShowSuggestions false ;;
    axios_post (Research searchQuery 10).

(** [handleSearch] from the point where the awaited request settles:
    the rest of [try], or [catch], and then [finally]. *)
Definition handleSearch_settled (o : settled ResearchResult.t) : M unit :=
  match o with
  | Fulfilled data => setResults (Some data)
  | Rejected =>
      console_error "Research error:" ;;
      alert "Error conducting research. Make sure the backend is running on port 8000."
  end ;;
  setIsLoading false.

(** [handleKeyPress] (lines 72-77); [preventDefault] has no effect on the
    state. *)
Definition handleKeyPress (key : jsstring) (shiftKey : bool) : M unit :=
  if code_units_eqb key (lit "Enter") && negb shiftKey
  then handleSearch None
  else ret tt.

(** [getSuggestions] (lines 79-94), up to its [await]. *)
Definition getSuggestions (searchQuery : jsstring) : M unit :=
  if List.length searchQuery <? 3 then ret tt
  else axios_post (Suggest searchQuery).

Definition getSuggestions_settled (o : settled Suggestion.t) : M unit :=
  match o with
  | Fulfilled data =>
      if Suggestion.success data then
        setSuggestions (Suggestion.suggestions data) ;;
        setShowSuggestions true
      else ret tt
  | Rejected => console_error "Suggestion error:"
  end.

(** [handleQueryChange] (lines 96-100); [value] is [e.target.value]. *)
Definition handleQueryChange (value : jsstring) : M unit :=
  setQuery value ;;
  getSuggestions value.

(** [handleSuggestionClick] (lines 102-106). *)
Definition handleSuggestionClick (suggestion : SuggestionItem.t) : M unit :=
  setQuery (SuggestionItem.suggested_query suggestion) ;;
  setShowSuggestions false ;;
  handleSearch (Some (SuggestionItem.suggested_query suggestion)).

(** [handleFileUpload] (lines 108-137), up to its [await]; [None] is a
    [null] file list.  The form data holds the files in order. *)
Definition handleFileUpload (files : option (list File.t)) : M unit :=
  match files with
  | None => ret tt
  | Some fs =>
      if List.length fs =? 0 then ret tt
      else
        setIsUploading true ;;
        setUploadSuccess false ;;
        axios_post (Ingest fs)
  end.

(** The rest of [handleFileUpload]; [fs] is the [files] of the call. *)
Definition handleFileUpload_settled (fs : list File.t)
    (o : settled IngestResponse.t) : M unit :=
  match o with
  | Fulfilled data =>
      if IngestResponse.success data then
        setUploadedFiles (fun prev => prev ++ fs) ;;
        setUploadSuccess true ;;
        setTimeout 3000
      else ret tt
  | Rejected =>
      console_error "Upload error:" ;;
      alert "Error uploading files. Make sure the backend is running."
  end ;;
  setIsUploading false.

(** The callback given to [setTimeout] (line 129). *)
Definition uploadSuccess_timeout : M unit := setUploadSuccess false.

(** ** Rendering (the JSX of lines 155-360, the conditions only) *)

Inductive panel := LoadingIndicator | ResultsPanel | WelcomePanel.

Definition is_set {A} (o : option A) : bool :=
  match o with Some _ => true | None => false end.

(** The three conditional blocks of [<main>], in document order: each one
    is rendered when its own condition holds. *)
Definition main_panels (s : AppState) : list panel :=
  (if isLoading s then [LoadingIndicator] else []) ++
  (if is_set (results s) then [ResultsPanel] else []) ++
  (if negb (is_set (results s)) && negb (isLoading s) then [WelcomePanel] else []).

(** The choice as the specification words it: [isLoading] first, then
    [results != null], then the welcome panel. *)
Definition panel_by_priority (s : AppState) : panel :=
  if isLoading s then LoadingIndicator
  else if is_set (results s) then ResultsPanel
  else WelcomePanel.

(** [showSuggestions && suggestions.length > 0] (line 210). *)
Definition suggestions_dropdown (s : AppState) : bool :=
  showSuggestions s && (0 <? List.length (suggestions s)).

Definition textarea_disabled (s : AppState) : bool := isLoading s.

Definition search_button_disabled (s : AppState) : bool :=
  isLoading s || negb (truthy (trim (query s))).

Definition upload_button_disabled (s : AppState) : bool := isUploading s.

(** ** Export (lines 139-153) *)

Inductive format := pdf | markdown | json.

Definition format_name (f : format) : jsstring :=
  match f with
  | pdf => lit "pdf"
  | markdown => lit "markdown"
  | json => lit "json"
  end.

(** The file handed to the browser: the [download] attribute of the anchor,
    the text of the blob and its type. *)
Record download_file := mkDownload {
  download : jsstring;
  blob : jsstring;
  blob_type : jsstring
}.

Definition NL : jsstring := [LF].

(** The template literal of line 144. *)
Definition report_text (r : ResearchResult.t) : jsstring :=
  lit "# Research Report" ++ NL ++ NL ++
  ResearchReport.summary (ResearchResult.research_report r) ++
  NL ++ NL ++ lit "## Key Findings" ++ NL ++
  join NL (map (fun f => lit "- " ++ f)
               (ResearchReport.key_findings (ResearchResult.research_report r))).

Section ExportReport.

(** [JSON.stringify(value, null, indent)] of the JavaScript runtime. *)
Variable JSON_stringify : ResearchResult.t -> N -> jsstring.

Definition exportReport (s : AppState) (fmt : format) : option download_file :=
  match results s with
  | None => None
  | Some r =>
      let content :=
        match fmt with
        | json => JSON_stringify r 2
        | _ => report_text r
        end in
      Some (mkDownload (lit "research-report." ++ format_name fmt)
                       content (lit "text/plain"))
  end.

End ExportReport.

(** ** The component with its environment *)

Record World := mkWorld {
  state : AppState;
  pending : list request;   (* requests awaited, oldest first *)
  history : list io;        (* most recent first *)
  timers : nat              (* [setTimeout] callbacks not yet run *)
}.

Definition initial_world : World := mkWorld initial_state [] [] 0.

Fixpoint posted (out : list io) : list request :=
  match out with
  | Posted r :: out' => r :: posted out'
  | _ :: out' => posted out'
  | [] => []
  end.

Fixpoint timers_set (out : list io) : nat :=
  match out with
  | TimerSet _ :: out' => S (timers_set out')
  | _ :: out' => timers_set out'
  | [] => 0
  end.

(** Run one synchronous stretch of a handler. *)
Definition perform (m : M unit) (w : World) : World :=
  let '(_, s, out) := m (state w) in
  mkWorld s (pending w ++ posted out) (rev out ++ history w)
          (timers w + timers_set out).

Fixpoint remove_nth {A} (k : nat) (l : list A) : list A :=
  match l, k with
  | [], _ => []
  | _ :: l', 0 => l'
  | x :: l', S k' => x :: remove_nth k' l'
  end.

(** The [k]-th awaited request [r] settles with [a]. *)
Definition receive (k : nat) (r : request) (a : answer) (w : World) : World :=
  mkWorld (state w) (remove_nth k (pending w)) (Received r a :: history w)
          (timers w).

Inductive event :=
| Change (value : jsstring)              (* typing in the textarea *)
| KeyPress (key : jsstring) (shiftKey : bool)
| ClickSearch
| ClickSuggestion (index : nat)          (* a row of the dropdown *)
| FilesChosen (files : option (list File.t))
| Settles (k : nat) (a : answer)         (* an awaited request settles *)
| TimerFires.

(** One transition.  An event of a control that is disabled or not rendered
    cannot occur, nor can an answer to a request that is not awaited. *)
Definition step (e : event) (w : World) : option World :=
  match e with
  | Change value =>
      if textarea_disabled (state w) then None
      else Some (perform (handleQueryChange value) w)
  | KeyPress key shiftKey =>
      if textarea_disabled (state w) then None
      else Some (perform (handleKeyPress key shiftKey) w)
  | ClickSearch =>
      if search_button_disabled (state w) then None
      else Some (perform (handleSearch None) w)
  | ClickSuggestion index =>
      if suggestions_dropdown (state w) then
        match nth_error (suggestions (state w)) index with
        | Some suggestion => Some (perform (handleSuggestionClick suggestion) w)
        | None => None
        end
      else None
  | FilesChosen files =>
      if upload_button_disabled (state w) then None
      else Some (perform (handleFileUpload files) w)
  | Settles k a =>
      match nth_error (pending w) k with
      | Some r =>
          match r, a with
          | Research _ _, ResearchAnswer o =>
              Some (perform (handleSearch_settled o) (receive k r a w))
          | Suggest _, SuggestAnswer o =>
              Some (perform (getSuggestions_settled o) (receive k r a w))
          | Ingest fs, IngestAnswer o =>
              Some (perform (handleFileUpload_settled fs o) (receive k r a w))
          | _, _ => None
          end
      | None => None
      end
  | TimerFires =>
      match timers w with
      | 0 => None
      | S n =>
          Some (perform uploadSuccess_timeout
                        (mkWorld (state w) (pending w) (history w) n))
      end
  end.

Fixpoint run (evs : list event) (w : World) : option World :=
  match evs with
  | [] => Some w
  | e :: evs' =>
      match step e w with
      | Some w' => run evs' w'
      | None => None
      end
  end.

Inductive reachable : World -> Prop :=
| reachable_initial : reachable initial_world
| reachable_step e w w' :
    reachable w -> step e w = Some w' -> reachable w'.

(** The text [handleSearch] works on: its argument, or [query]. *)
Definition searchQuery_of (arg : option jsstring) (s : AppState) : jsstring :=
  match arg with
  | Some text => text
  | None => query s
  end.

(** ** Reading the history *)

Definition is_research_post (i : io) : bool :=
  match i with
  | Posted (Research _ _) => true
  | _ => false
  end.

(** A [/suggest] answer that was fulfilled with [success] set. *)
Definition is_suggest_success (i : io) : bool :=
  match i with
  | Received _ (SuggestAnswer (Fulfilled d)) => Suggestion.success d
  | _ => false
  end.

(** A [/research] answer that was fulfilled. *)
Definition is_research_success (i : io) : bool :=
  match i with
  | Received _ (ResearchAnswer (Fulfilled _)) => true
  | _ => false
  end.

(** The most recent [/suggest] answer of any kind. *)
Fixpoint last_suggest_answer (h : list io) : option (settled Suggestion.t) :=
  match h with
  | Received _ (SuggestAnswer o) :: _ => Some o
  | _ :: h' => last_suggest_answer h'
  | [] => None
  end.

(** The successful [/suggest] answer that the suggestion list comes from:
    the most recent one, unless a research request was posted after it. *)
Fixpoint overlay_origin (h : list io) : option Suggestion.t :=
  match h with
  | [] => None
  | i :: h' =>
      match i with
      | Posted (Research _ _) => None
      | Received _ (SuggestAnswer (Fulfilled d)) =>
          if Suggestion.success d then Some d else overlay_origin h'
      | _ => overlay_origin h'
      end
  end.

Definition origin_list (h : list io) : list SuggestionItem.t :=
  match overlay_origin h with
  | Some d => Suggestion.suggestions d
  | None => []
  end.

(** The report that the history accounts for: the most recent fulfilled
    [/research] answer, unless a research request was posted after it. *)
Fixpoint held_results (h : list io) : option ResearchResult.t :=
  match h with
  | [] => None
  | i :: h' =>
      match i with
      | Posted (Research _ _) => None
      | Received _ (ResearchAnswer (Fulfilled d)) => Some d
      | _ => held_results h'
      end
  end.

(** What every awaited request satisfies, by the guard of the handler that
    posted it. *)
Definition well_formed_request (r : request) : Prop :=
  match r with
  | Research q m => trim q <> [] /\ m = 10%N
  | Suggest q => 3 <= List.length q
  | Ingest fs => fs <> []
  end.

(** The invariant of the component. *)
Record invariant (w : World) : Prop := mkInvariant {
  inv_suggestions : suggestions (state w) = origin_list (history w);
  inv_overlay : showSuggestions (state w) = true -> overlay_origin (history w) <> None;
  inv_results : results (state w) = held_results (history w);
  inv_loading : isLoading (state w) = true -> results (state w) = None;
  inv_pending : forall r, In r (pending w) ->
                          In (Posted r) (history w) /\ well_formed_request r
}.

(** ** Sample data *)

Definition sample_item : SuggestionItem.t :=
  SuggestionItem.mk (lit "impact of caching on p99 latency") (lit "specificity")
                    (lit "narrows metric") 0.75%float 0.25%float.

Definition blank_item : SuggestionItem.t :=
  SuggestionItem.mk (lit " ") (lit "specificity") (lit "none") 0.5%float 0%float.

Definition sample_source : Source.t :=
  Source.mk (lit "Caching at Scale") (lit "Caches cut tail latency.") 0.875%float.

Definition sample_result : ResearchResult.t :=
  ResearchResult.mk true
    (ResearchReport.mk
       (lit "As shown in Caching at Scale, caching lowers latency.")
       [lit "Hit rate drives latency"; lit "Cold starts dominate p99"]
       0.75%float [sample_source])
    1.5%float 1%float 4%float.

Definition sample_files : list File.t :=
  [File.mk (lit "notes.md") 120; File.mk (lit "paper.pdf") 4096].

Definition Enter : jsstring := lit "Enter".

(** Type a query, send it with Enter; its suggestions arrive while the
    research request is still awaited; then the research answer arrives. *)
Definition late_suggestions : list event :=
  [ Change (lit "impact of caching on latency");
    KeyPress Enter false;
    Settles 0 (SuggestAnswer (Fulfilled (Suggestion.mk true [sample_item])));
    Settles 0 (ResearchAnswer (Fulfilled sample_result)) ].

(** As above, but the user clicks the late suggestion while the first
    research request is awaited; the second request is answered first and
    the first one fails afterwards. *)
Definition overlapping_searches : list event :=
  [ Change (lit "impact of caching on latency");
    KeyPress Enter false;
    Settles 0 (SuggestAnswer (Fulfilled (Suggestion.mk true [sample_item])));
    ClickSuggestion 0;
    Settles 1 (ResearchAnswer (Fulfilled sample_result));
    Settles 0 (ResearchAnswer Rejected) ].

(** A successful [/suggest] answer with no suggestion in it. *)
Definition empty_suggestions : list event :=
  [ Change (lit "xyzzy");
    Settles 0 (SuggestAnswer (Fulfilled (Suggestion.mk true []))) ].

(** Two keystrokes ask for suggestions; the first answer brings one, the
    second request fails. *)
Definition failed_refresh : list event :=
  [ Change (lit "cach");
    Change (lit "cache");
    Settles 0 (SuggestAnswer (Fulfilled (Suggestion.mk true [sample_item])));
    Settles 0 (SuggestAnswer Rejected) ].

(** A suggestion whose text is blank is shown and clicked. *)
Definition blank_suggestion_clicked : list event :=
  [ Change (lit "abc");
    Settles 0 (SuggestAnswer (Fulfilled (Suggestion.mk true [blank_item])));
    ClickSuggestion 0 ].

(** A whole session: search, answer, upload, answer, banner timeout. *)
Definition plain_session : list event :=
  [ Change (lit "ab");
    Change (lit "abc");
    Settles 0 (SuggestAnswer Rejected);
    ClickSearch;
    Settles 0 (ResearchAnswer (Fulfilled sample_result));
    FilesChosen (Some sample_files);
    Settles 0 (IngestAnswer (Fulfilled (IngestResponse.mk true)));
    TimerFires ].

(** A query is typed and sent; its request is awaited. *)
Definition search_sent : list event :=
  [ Change (lit "abc");
    Settles 0 (SuggestAnswer Rejected);
    ClickSearch ].

(** Files are chosen; the upload is awaited. *)
Definition upload_sent : list event :=
  [ FilesChosen (Some sample_files) ].

(** The world a sequence of events leads to (the initial one if some event
    of the sequence cannot occur). *)
Definition world_after (evs : list event) : World :=
  match run evs initial_world with
  | Some w => w
  | None => initial_world
  end.

(** A state in which the sample report is shown. *)
Definition showing_sample : AppState :=
  mkState (lit "caching") false (Some sample_result) [] false [] false false.

(** ** The backend address (line 36) *)

Definition default_base_url : jsstring := lit "http://localhost:8000".

(** [process.env.REACT_APP_API_URL || 'http://localhost:8000']: the variable
    when it is set to a string that is not empty, the default otherwise. *)
Definition API_BASE_URL (REACT_APP_API_URL : option jsstring) : jsstring :=
  match REACT_APP_API_URL with
  | Some url => if truthy url then url else default_base_url
  | None => default_base_url
  end.

Definition endpoint (r : request) : jsstring :=
  match r with
  | Research _ _ => lit "/research"
  | Suggest _ => lit "/suggest"
  | Ingest _ => lit "/ingest"
  end.

(** The first argument of [axios.post] (lines 58, 83, 120). *)
Definition request_url (REACT_APP_API_URL : option jsstring) (r : request) : jsstring :=
  API_BASE_URL REACT_APP_API_URL ++ endpoint r.

(** ** More readers of the world *)

Definition research_error_notice : jsstring :=
  lit "Error conducting research. Make sure the backend is running on port 8000.".

Definition upload_error_notice : jsstring :=
  lit "Error uploading files. Make sure the backend is running.".

Definition is_research_request (r : request) : bool :=
  match r with Research _ _ => true | _ => false end.

Definition is_ingest_request (r : request) : bool :=
  match r with Ingest _ => true | _ => false end.

Definition is_post (i : io) : bool :=
  match i with Posted _ => true | _ => false end.

Definition is_alert (i : io) : bool :=
  match i with Alerted _ => true | _ => false end.

(** The notices raised by [alert], most recent first. *)
Fixpoint alerts_raised (h : list io) : list jsstring :=
  match h with
  | [] => []
  | Alerted message :: h' => message :: alerts_raised h'
  | _ :: h' => alerts_raised h'
  end.

(** One notice for each rejected [/research] or [/ingest] request, most
    recent first. *)
Fixpoint alerts_due (h : list io) : list jsstring :=
  match h with
  | [] => []
  | Received _ (ResearchAnswer Rejected) :: h' => research_error_notice :: alerts_due h'
  | Received _ (IngestAnswer Rejected) :: h' => upload_error_notice :: alerts_due h'
  | _ :: h' => alerts_due h'
  end.

(** The files of the uploads that were answered with [success] set, in the
    order of the answers. *)
Fixpoint uploaded_by (h : list io) : list File.t :=
  match h with
  | [] => []
  | Received (Ingest fs) (IngestAnswer (Fulfilled d)) :: h' =>
      if IngestResponse.success d then uploaded_by h' ++ fs else uploaded_by h'
  | _ :: h' => uploaded_by h'
  end.

(** What the upload and notification side of the component keeps. *)
Record session_invariant (w : World) : Prop := mkSessionInvariant {
  sess_upload : List.length (filter is_ingest_request (pending w))
                = if isUploading (state w) then 1 else 0;
  sess_banner : uploadSuccess (state w) = true -> 1 <= timers w;
  sess_loading : isLoading (state w) = true ->
                 existsb is_research_request (pending w) = true;
  sess_files : uploadedFiles (state w) = uploaded_by (history w);
  sess_alerts : alerts_raised (history w) = alerts_due (history w);
  sess_posted : forall r, In (Posted r) (history w) -> well_formed_request r
}.

(** Two uploads, the first one answered with success, the second rejected,
    with a failed search in between. *)
Definition two_uploads : list event :=
  [ FilesChosen (Some sample_files);
    Change (lit "abc");
    KeyPress Enter false;
    Settles 0 (IngestAnswer (Fulfilled (IngestResponse.mk true)));
    Settles 1 (ResearchAnswer Rejected);
    FilesChosen (Some [File.mk (lit "draft.txt") 7]);
    Settles 1 (IngestAnswer Rejected) ].

(** A result with no finding. *)
Definition bare_result : ResearchResult.t :=
  ResearchResult.mk true
    (ResearchReport.mk (lit "Nothing found.") [] 0%float [])
    0.5%float 0%float 1%float.

(** ** JSON export: the value that is written, and reading it back *)

(** A JSON value. *)
Unset Elimination Schemes.
Inductive json_value :=
| JNull
| JBool (b : bool)
| JNumber (x : number)
| JString (s : jsstring)
| JArray (items : list json_value)
| JObject (members : list (jsstring * json_value)).
Set Elimination Schemes.

(** NaN and the two infinities are not finite. *)
Definition is_finite (x : number) : bool :=
  match classify x with
  | FloatClass.PInf | FloatClass.NInf | FloatClass.NaN => false
  | _ => true
  end.

(** What [JSON.stringify] writes for a number: the number when it is finite,
    [null] otherwise. *)
Definition number_to_json (x : number) : json_value :=
  if is_finite x then JNumber x else JNull.

Definition source_to_json (src : Source.t) : json_value :=
  JObject [ (lit "title", JString (Source.title src));
            (lit "content", JString (Source.content src));
            (lit "relevance_score", number_to_json (Source.relevance_score src)) ].

Definition report_to_json (report : ResearchReport.t) : json_value :=
  JObject [ (lit "summary", JString (ResearchReport.summary report));
            (lit "key_findings", JArray (map JString (ResearchReport.key_findings report)));
            (lit "confidence_score", number_to_json (ResearchReport.confidence_score report));
            (lit "sources", JArray (map source_to_json (ResearchReport.sources report))) ].

(** The value written for a result: its fields, in the order of the
    interface, each with what [JSON.stringify] writes for it. *)
Definition result_to_json (r : ResearchResult.t) : json_value :=
  JObject [ (lit "success", JBool (ResearchResult.success r));
            (lit "research_report", report_to_json (ResearchResult.research_report r));
            (lit "execution_time", number_to_json (ResearchResult.execution_time r));
            (lit "sources_found", number_to_json (ResearchResult.sources_found r));
            (lit "reasoning_steps", number_to_json (ResearchResult.reasoning_steps r)) ].

Section JSONText.

(** The text of a JSON value with the given indentation, as the JavaScript
    runtime writes it. *)
Variable JSON_text : json_value -> N -> jsstring.

(** [JSON.stringify(results, null, indent)]. *)
Definition JSON_stringify_result (value : ResearchResult.t) (indent : N) : jsstring :=
  JSON_text (result_to_json value) indent.

End JSONText.

(** Reading a parsed value field by field. *)
Fixpoint member (key : jsstring) (members : list (jsstring * json_value)) : option json_value :=
  match members with
  | [] => None
  | (k, v) :: rest => if code_units_eqb k key then Some v else member key rest
  end.

Definition field {A} (read : json_value -> option A) (key : string) (v : json_value) : option A :=
  match v with
  | JObject members =>
      match member (lit key) members with
      | Some x => read x
      | None => None
      end
  | _ => None
  end.

Definition as_bool (v : json_value) : option bool :=
  match v with JBool b => Some b | _ => None end.

Definition as_number (v : json_value) : option number :=
  match v with JNumber x => Some x | _ => None end.

Definition as_string (v : json_value) : option jsstring :=
  match v with JString s => Some s | _ => None end.

Fixpoint read_all {A} (read : json_value -> option A) (items : list json_value) : option (list A) :=
  match items with
  | [] => Some []
  | v :: rest =>
      match read v, read_all read rest with
      | Some a, Some l => Some (a :: l)
      | _, _ => None
      end
  end.

Definition as_array {A} (read : json_value -> option A) (v : json_value) : option (list A) :=
  match v with JArray items => read_all read items | _ => None end.

Definition source_from_json (v : json_value) : option Source.t :=
  match field as_string "title" v, field as_string "content" v,
        field as_number "relevance_score" v with
  | Some t, Some c, Some x => Some (Source.mk t c x)
  | _, _, _ => None
  end.

Definition report_from_json (v : json_value) : option ResearchReport.t :=
  match field as_string "summary" v, field (as_array as_string) "key_findings" v,
        field as_number "confidence_score" v,
        field (as_array source_from_json) "sources" v with
  | Some s, Some f, Some x, Some l => Some (ResearchReport.mk s f x l)
  | _, _, _, _ => None
  end.

(** The [ResearchResult] that a parsed value holds, when every field is
    there with its type. *)
Definition result_from_json (v : json_value) : option ResearchResult.t :=
  match field as_bool "success" v, field report_from_json "research_report" v,
        field as_number "execution_time" v, field as_number "sources_found" v,
        field as_number "reasoning_steps" v with
  | Some b, Some report, Some t, Some n, Some k =>
      Some (ResearchResult.mk b report t n k)
  | _, _, _, _, _ => None
  end.

(** Every number of the result is finite. *)
Definition finite_numbers (r : ResearchResult.t) : bool :=
  is_finite (ResearchResult.execution_time r)
  && is_finite (ResearchResult.sources_found r)
  && is_finite (ResearchResult.reasoning_steps r)
  && is_finite (ResearchReport.confidence_score (ResearchResult.research_report r))
  && forallb (fun src => is_finite (Source.relevance_score src))
             (ResearchReport.sources (ResearchResult.research_report r)).

(** A state in which [r] is the result shown. *)
Definition showing (r : ResearchResult.t) : AppState :=
  mkState (lit "caching") false (Some r) [] false [] false false.

(** The sample result with another execution time. *)
Definition timed_result (seconds : number) : ResearchResult.t :=
  ResearchResult.mk true (ResearchResult.research_report sample_result)
                    seconds 1%float 4%float.

(** A result with one finding, which has a line break in it. *)
Definition two_line_result : ResearchResult.t :=
  ResearchResult.mk true
    (ResearchReport.mk (lit "Summary.") [lit "first" ++ NL ++ lit "second"]
                       0.5%float [])
    1%float 0%float 1%float.

(** An upload that the backend answers with [success] unset. *)
Definition upload_refused : list event :=
  [ FilesChosen (Some sample_files);
    Settles 0 (IngestAnswer (Fulfilled (IngestResponse.mk false))) ].

(** * Properties *)

(** ** Strings *)

Lemma truthy_false_iff (s : jsstring) : truthy s = false <-> s = [].
Proof. destruct s; simpl; split; congruence. Qed.

Lemma truthy_true_iff (s : jsstring) : truthy s = true <-> s <> [].
Proof. destruct s; simpl; split; congruence. Qed.

Lemma trimStart_blank (s : jsstring) :
  trimStart s = [] <-> forallb is_white_space s = true.
Proof.
  induction s as [|c s IH]; simpl.
  - tauto.
  - destruct (is_white_space c); simpl.
    + exact IH.
    + split; discriminate.
Qed.

(** What [trimStart] leaves starts with a character that is not white space. *)
Lemma trimStart_head (s t : jsstring) (c : code_unit) :
  trimStart s = c :: t -> is_white_space c = false.
Proof.
  induction s as [|a s IH]; simpl; [discriminate|].
  destruct (is_white_space a) eqn:Ea; [exact IH|].
  intros H. injection H as -> _. exact Ea.
Qed.

Lemma trimStart_keeps_last (v : jsstring) (c : code_unit) :
  is_white_space c = false -> trimStart (v ++ [c]) <> [].
Proof.
  intros Hc. induction v as [|a v IH]; simpl.
  - rewrite Hc. discriminate.
  - destruct (is_white_space a); [exact IH | discriminate].
Qed.

(** A string trims to the empty string exactly when it consists of white
    space only. *)
Lemma trim_blank (s : jsstring) :
  trim s = [] <-> forallb is_white_space s = true.
Proof.
  unfold trim, trimEnd. rewrite <- trimStart_blank. split.
  - intros H. apply (f_equal (@rev code_unit)) in H.
    rewrite rev_involutive in H. simpl in H.
    destruct (trimStart s) as [|c t] eqn:E; [reflexivity|].
    exfalso. simpl in H.
    exact (trimStart_keeps_last (rev t) c (trimStart_head s E) H).
  - intros ->. reflexivity.
Qed.

Lemma startsWith_app (p rest : jsstring) : startsWith (p ++ rest) p = true.
Proof.
  induction p as [|x p IH]; simpl; [reflexivity|].
  rewrite N.eqb_refl. exact IH.
Qed.

Lemma includes_app (pre sub post : jsstring) :
  includes (pre ++ sub ++ post) sub = true.
Proof.
  induction pre as [|x pre IH]; simpl.
  - assert (H : forall t, startsWith t sub = true -> includes t sub = true).
    { intros [|c t] Ht; simpl; rewrite Ht; reflexivity. }
    apply H, startsWith_app.
  - rewrite IH. apply orb_true_r.
Qed.

(** ** The invariant *)

Lemma in_remove_nth {A} (k : nat) (l : list A) (x : A) :
  In x (remove_nth k l) -> In x l.
Proof.
  revert k. induction l as [|y l IH]; intros k H; simpl in *.
  - destruct k; exact H.
  - destruct k as [|k]; simpl in H.
    + right. exact H.
    + destruct H as [H|H]; [left; exact H | right; exact (IH k H)].
Qed.

Lemma invariant_initial : invariant initial_world.
Proof.
  constructor; simpl; try reflexivity; try discriminate.
  intros r [].
Qed.

(** Unfold one stretch of a handler down to the resulting world. *)
Ltac run_handler :=
  unfold perform, receive,
    handleQueryChange, handleKeyPress, handleSuggestionClick, handleSearch,
    handleSearch_settled, getSuggestions, getSuggestions_settled,
    handleFileUpload, handleFileUpload_settled, uploadSuccess_timeout,
    setQuery, setIsLoading, setResults, setSuggestions, setShowSuggestions,
    setUploadedFiles, setIsUploading, setUploadSuccess,
    axios_post, alert, console_error, setTimeout,
    bind, ret, read, update, emit, origin_list in *;
  simpl in *.

Ltac split_invariant := constructor; unfold origin_list; simpl.

Ltac pending_cases H :=
  repeat (rewrite in_app_iff in H; simpl in H);
  repeat match type of H with
         | _ \/ _ => destruct H as [H|H]
         | False => destruct H
         end.

Lemma step_invariant (e : event) (w w' : World) :
  invariant w -> step e w = Some w' -> invariant w'.
Proof.
  intros [Isug Iov Ires Iload Ipend] Hstep.
  destruct w as [s p h t]; simpl in *.
  destruct e as [value|key shiftKey| |index|files|k a| ]; simpl in Hstep.
  - (* Change *)
    destruct (textarea_disabled s) eqn:Hdis; [discriminate|].
    injection Hstep as <-. run_handler.
    destruct (List.length value <? 3) eqn:Hlen; simpl;
      split_invariant; auto.
    + intros r Hr. rewrite app_nil_r in Hr. auto.
    + intros r Hr. pending_cases Hr.
      * destruct (Ipend r Hr) as [H1 H2]. auto.
      * subst r. split; [left; reflexivity|]. simpl.
        apply Nat.ltb_ge in Hlen. exact Hlen.
  - (* KeyPress *)
    destruct (textarea_disabled s) eqn:Hdis; [discriminate|].
    injection Hstep as <-. run_handler.
    destruct (code_units_eqb key (lit "Enter") && negb shiftKey); simpl.
    + destruct (negb (truthy (trim (query s)))) eqn:Hq; simpl;
        split_invariant; auto; try discriminate.
      * intros r Hr. rewrite app_nil_r in Hr. auto.
      * intros r Hr. pending_cases Hr.
        -- destruct (Ipend r Hr) as [H1 H2]. auto.
        -- subst r. split; [left; reflexivity|]. simpl. split; [|reflexivity].
           apply truthy_true_iff. apply negb_false_iff. exact Hq.
    + split_invariant; auto.
      intros r Hr. rewrite app_nil_r in Hr. auto.
  - (* ClickSearch *)
    destruct (search_button_disabled s) eqn:Hdis; [discriminate|].
    injection Hstep as <-. run_handler.
    destruct (negb (truthy (trim (query s)))) eqn:Hq; simpl;
      split_invariant; auto; try discriminate.
    + intros r Hr. rewrite app_nil_r in Hr. auto.
    + intros r Hr. pending_cases Hr.
      * destruct (Ipend r Hr) as [H1 H2]. auto.
      * subst r. split; [left; reflexivity|]. simpl. split; [|reflexivity].
        apply truthy_true_iff. apply negb_false_iff. exact Hq.
  - (* ClickSuggestion *)
    destruct (suggestions_dropdown s) eqn:Hdd; [|discriminate].
    destruct (nth_error (suggestions s) index) as [sg|] eqn:Hnth; [|discriminate].
    injection Hstep as <-. run_handler.
    destruct (negb (truthy (trim (SuggestionItem.suggested_query sg)))) eqn:Hq;
      simpl; split_invariant; auto; try discriminate.
    + intros r Hr. rewrite app_nil_r in Hr. auto.
    + intros r Hr. pending_cases Hr.
      * destruct (Ipend r Hr) as [H1 H2]. auto.
      * subst r. split; [left; reflexivity|]. simpl. split; [|reflexivity].
        apply truthy_true_iff. apply negb_false_iff. exact Hq.
  - (* FilesChosen *)
    destruct (upload_button_disabled s) eqn:Hdis; [discriminate|].
    injection Hstep as <-. run_handler.
    destruct files as [fs|]; simpl.
    + destruct (List.length fs =? 0) eqn:Hlen; simpl;
        split_invariant; auto.
      * intros r Hr. rewrite app_nil_r in Hr. auto.
      * intros r Hr. pending_cases Hr.
        -- destruct (Ipend r Hr) as [H1 H2]. auto.
        -- subst r. split; [left; reflexivity|]. simpl.
           intros ->. discriminate.
    + split_invariant; auto.
      intros r Hr. rewrite app_nil_r in Hr. auto.
  - (* Settles *)
    destruct (nth_error p k) as [r0|] eqn:Hk; [|discriminate].
    destruct r0 as [q m|q|fs], a as [o|o|o]; try discriminate;
      injection Hstep as <-; run_handler.
    + (* /research *)
      destruct o as [data|]; simpl; split_invariant; auto; try discriminate;
        intros r Hr; rewrite app_nil_r in Hr; apply in_remove_nth in Hr;
        destruct (Ipend r Hr) as [H1 H2]; auto.
    + (* /suggest *)
      destruct o as [data|]; simpl.
      * destruct (Suggestion.success data) eqn:Hok; simpl;
          split_invariant; try rewrite Hok; auto;
          try solve [intros; congruence];
          intros r Hr; rewrite app_nil_r in Hr; apply in_remove_nth in Hr;
          destruct (Ipend r Hr) as [H1 H2]; auto.
      * split_invariant; auto.
        intros r Hr; rewrite app_nil_r in Hr; apply in_remove_nth in Hr;
          destruct (Ipend r Hr) as [H1 H2]; auto.
    + (* /ingest *)
      destruct o as [data|]; simpl.
      * destruct (IngestResponse.success data) eqn:Hok; simpl;
          split_invariant; auto;
          intros r Hr; rewrite app_nil_r in Hr; apply in_remove_nth in Hr;
          destruct (Ipend r Hr) as [H1 H2]; auto.
      * split_invariant; auto.
        intros r Hr; rewrite app_nil_r in Hr; apply in_remove_nth in Hr;
          destruct (Ipend r Hr) as [H1 H2]; auto.
  - (* TimerFires *)
    destruct t as [|n]; [discriminate|].
    injection Hstep as <-. run_handler.
    split_invariant; auto.
    intros r Hr. rewrite app_nil_r in Hr. auto.
Qed.

Lemma run_reachable (evs : list event) (w w' : World) :
  reachable w -> run evs w = Some w' -> reachable w'.
Proof.
  revert w. induction evs as [|e evs IH]; intros w Hw Hrun; simpl in Hrun.
  - injection Hrun as <-. exact Hw.
  - destruct (step e w) as [w1|] eqn:Hstep; [|discriminate].
    apply (IH w1); [|exact Hrun].
    exact (reachable_step e Hw Hstep).
Qed.

Lemma reachable_invariant (w : World) : reachable w -> invariant w.
Proof.
  induction 1 as [|e w w' _ IH Hstep].
  - exact invariant_initial.
  - exact (step_invariant e IH Hstep).
Qed.

Lemma run_invariant (evs : list event) (w : World) :
  run evs initial_world = Some w -> invariant w.
Proof.
  intros Hrun. apply reachable_invariant.
  exact (run_reachable evs reachable_initial Hrun).
Qed.

(** ** The history readers, in terms of the order of events *)

Lemma overlay_origin_after_post (later earlier : list io) q m :
  Forall (fun i => is_suggest_success i = false) later ->
  overlay_origin (later ++ Posted (Research q m) :: earlier) = None.
Proof.
  induction 1 as [|i later Hi _ IH]; simpl; [reflexivity|].
  destruct i as [[ | | ]| r [o|[d|]|o] | | | ]; simpl in *;
    try reflexivity; try exact IH.
  rewrite Hi. exact IH.
Qed.

Lemma overlay_origin_found (h : list io) (d : Suggestion.t) :
  overlay_origin h = Some d ->
  exists later r earlier,
    h = later ++ Received r (SuggestAnswer (Fulfilled d)) :: earlier /\
    Suggestion.success d = true /\
    Forall (fun i => is_research_post i = false /\ is_suggest_success i = false)
           later.
Proof.
  induction h as [|i h IH]; simpl; [discriminate|].
  intros H.
  assert (Hrec : overlay_origin h = Some d ->
                 is_research_post i = false -> is_suggest_success i = false ->
                 exists later r earlier,
                   i :: h = later ++ Received r (SuggestAnswer (Fulfilled d)) :: earlier /\
                   Suggestion.success d = true /\
                   Forall (fun i => is_research_post i = false /\
                                    is_suggest_success i = false) later).
  { intros Hh H1 H2. destruct (IH Hh) as (later & r & earlier & -> & Hok & Hall).
    exists (i :: later), r, earlier. repeat split; auto. }
  destruct i as [[ | | ]| r [o|[d0|]|o] | | | ]; simpl in *;
    try discriminate; try (apply Hrec; auto; fail).
  destruct (Suggestion.success d0) eqn:Hok.
  - injection H as <-. exists [], r, h. repeat split; auto.
  - apply Hrec; auto.
Qed.

Lemma held_results_after_post (later earlier : list io) q m :
  Forall (fun i => is_research_success i = false) later ->
  held_results (later ++ Posted (Research q m) :: earlier) = None.
Proof.
  induction 1 as [|i later Hi _ IH]; simpl; [reflexivity|].
  destruct i as [[ | | ]| r [[d|]|o|o] | | | ]; simpl in *;
    try reflexivity; try exact IH.
  discriminate.
Qed.

(** ** Submitting (handleSearch) *)

(** A handler that returns the state as it was and emits nothing leaves the
    world as it was. *)
Lemma perform_silent (m : M unit) (w : World) :
  m (state w) = (tt, state w, []) -> perform m w = w.
Proof.
  intros H. unfold perform. rewrite H. destruct w as [s p h t]; simpl.
  rewrite app_nil_r, Nat.add_0_r. reflexivity.
Qed.

Lemma handleSearch_blank (arg : option jsstring) (s : AppState) :
  trim (searchQuery_of arg s) = [] -> handleSearch arg s = (tt, s, []).
Proof.
  intros Hblank. unfold handleSearch, bind, ret, read.
  destruct arg as [text|]; simpl in *; rewrite Hblank; reflexivity.
Qed.

(** C1.  For every state, [handleSearch] on a text that trims to the empty
    string (its argument, or [query] when called without one) does nothing:
    the state is returned as it was and nothing is emitted, so no request is
    posted and the world (state, awaited requests, history, timers) is the
    same. *)
Theorem handleSearch_blank_is_noop (arg : option jsstring) (w : World) :
  trim (searchQuery_of arg (state w)) = [] ->
  handleSearch arg (state w) = (tt, state w, []) /\
  perform (handleSearch arg) w = w.
Proof.
  intros Hblank. split.
  - apply handleSearch_blank. exact Hblank.
  - apply perform_silent, handleSearch_blank. exact Hblank.
Qed.

Lemma handleSearch_blank_is_noop_witness :
  trim (searchQuery_of (Some (lit "   ")) (state (world_after late_suggestions))) = [] /\
  (handleSearch (Some (lit "   ")) (state (world_after late_suggestions))
   = (tt, state (world_after late_suggestions), []) /\
   perform (handleSearch (Some (lit "   "))) (world_after late_suggestions)
   = world_after late_suggestions).
Proof.
  split; [reflexivity|].
  apply (handleSearch_blank_is_noop (Some (lit "   ")) (world_after late_suggestions)).
  reflexivity.
Defined.

(** Enter on a blank query: the key press changes nothing. *)
Lemma enter_on_blank_query (w : World) :
  textarea_disabled (state w) = false ->
  trim (query (state w)) = [] ->
  step (KeyPress Enter false) w = Some w.
Proof.
  intros Hdis Hblank. unfold step. rewrite Hdis.
  unfold handleKeyPress. simpl.
  f_equal. apply perform_silent, (handleSearch_blank None). exact Hblank.
Qed.

(** The send button is disabled on a blank query. *)
Lemma click_on_blank_query (w : World) :
  trim (query (state w)) = [] -> step ClickSearch w = None.
Proof.
  intros Hblank. unfold step, search_button_disabled.
  rewrite Hblank. simpl. rewrite orb_true_r. reflexivity.
Qed.

(** ** Typing (handleQueryChange, getSuggestions) *)

(** C6.  For every string of fewer than three code units, the change handler
    only stores it as the query: nothing is emitted, so no suggestion request
    is posted, and the suggestion list and [showSuggestions] (like every
    other field) keep their values. *)
Theorem short_query_fetches_nothing (value : jsstring) (w : World) :
  List.length value < 3 ->
  handleQueryChange value (state w)
  = (tt,
     mkState value (isLoading (state w)) (results (state w))
             (suggestions (state w)) (showSuggestions (state w))
             (uploadedFiles (state w)) (isUploading (state w))
             (uploadSuccess (state w)),
     []) /\
  suggestions (state (perform (handleQueryChange value) w)) = suggestions (state w) /\
  showSuggestions (state (perform (handleQueryChange value) w))
  = showSuggestions (state w) /\
  pending (perform (handleQueryChange value) w) = pending w /\
  history (perform (handleQueryChange value) w) = history w.
Proof.
  intros Hlen. apply Nat.ltb_lt in Hlen.
  assert (H : handleQueryChange value (state w)
              = (tt,
                 mkState value (isLoading (state w)) (results (state w))
                         (suggestions (state w)) (showSuggestions (state w))
                         (uploadedFiles (state w)) (isUploading (state w))
                         (uploadSuccess (state w)),
                 [])).
  { unfold handleQueryChange, getSuggestions, setQuery, update, bind, ret.
    simpl. rewrite Hlen. reflexivity. }
  split; [exact H|].
  unfold perform. rewrite H. simpl. rewrite app_nil_r. auto.
Qed.

Lemma short_query_fetches_nothing_witness :
  List.length (lit "p9") < 3 /\
  suggestions (state (perform (handleQueryChange (lit "p9"))
                              (world_after late_suggestions)))
  = suggestions (state (world_after late_suggestions)).
Proof.
  split; [simpl; lia|].
  apply (short_query_fetches_nothing (lit "p9") (world_after late_suggestions)).
  simpl; lia.
Defined.

(** From three code units on, one suggestion request is posted. *)
Lemma long_query_fetches (value : jsstring) (w : World) :
  3 <= List.length value ->
  pending (perform (handleQueryChange value) w) = pending w ++ [Suggest value] /\
  history (perform (handleQueryChange value) w) = Posted (Suggest value) :: history w.
Proof.
  intros Hlen. apply Nat.ltb_ge in Hlen.
  unfold perform, handleQueryChange, getSuggestions, setQuery, update, bind,
    ret, axios_post, emit.
  simpl. rewrite Hlen. simpl. auto.
Qed.

(** ** What is rendered *)

(** C3.  In every reachable state exactly one of the three panels is
    rendered, and it is the one chosen by priority: the loading indicator
    when [isLoading], else the results when [results] is set, else the
    welcome panel. *)
Theorem one_main_panel (evs : list event) (w : World) :
  run evs initial_world = Some w ->
  main_panels (state w) = [panel_by_priority (state w)].
Proof.
  intros Hrun. destruct (run_invariant evs Hrun) as [_ _ _ Hload _].
  unfold main_panels, panel_by_priority.
  destruct (isLoading (state w)) eqn:Hl.
  - rewrite (Hload eq_refl). reflexivity.
  - destruct (results (state w)); reflexivity.
Qed.

Lemma one_main_panel_witness :
  run plain_session initial_world = Some (world_after plain_session) /\
  main_panels (state (world_after plain_session))
  = [panel_by_priority (state (world_after plain_session))].
Proof.
  split; [vm_compute; reflexivity|].
  apply (one_main_panel plain_session). vm_compute; reflexivity.
Defined.

(** ** Answers to awaited requests *)

Lemma research_settles (w : World) k q m o :
  nth_error (pending w) k = Some (Research q m) ->
  step (Settles k (ResearchAnswer o)) w
  = Some (perform (handleSearch_settled o)
                  (receive k (Research q m) (ResearchAnswer o) w)).
Proof. intros H. unfold step. rewrite H. reflexivity. Qed.

Lemma ingest_settles (w : World) k fs o :
  nth_error (pending w) k = Some (Ingest fs) ->
  step (Settles k (IngestAnswer o)) w
  = Some (perform (handleFileUpload_settled fs o)
                  (receive k (Ingest fs) (IngestAnswer o) w)).
Proof. intros H. unfold step. rewrite H. reflexivity. Qed.

(** C4 (amended).  When an awaited research request is answered
    successfully, [results] becomes exactly the answer and [isLoading]
    becomes false; the request was posted for a query that is not blank.
    The answer leaves the suggestion list and [showSuggestions] as they were:
    they are empty and false provided no successful suggestion answer has
    arrived since a research request was posted. *)
Theorem research_success_state (evs : list event) (w : World) k q m data :
  run evs initial_world = Some w ->
  nth_error (pending w) k = Some (Research q m) ->
  exists w',
    step (Settles k (ResearchAnswer (Fulfilled data))) w = Some w' /\
    (trim q <> [] /\ m = 10%N /\ In (Posted (Research q m)) (history w)) /\
    results (state w') = Some data /\
    isLoading (state w') = false /\
    suggestions (state w') = suggestions (state w) /\
    showSuggestions (state w') = showSuggestions (state w) /\
    (forall later q0 m0 earlier,
        history w = later ++ Posted (Research q0 m0) :: earlier ->
        Forall (fun i => is_suggest_success i = false) later ->
        suggestions (state w') = [] /\ showSuggestions (state w') = false).
Proof.
  intros Hrun Hk.
  destruct (run_invariant evs Hrun) as [Isug Iov _ _ Ipend].
  eexists. split; [apply research_settles; exact Hk|].
  destruct (Ipend _ (nth_error_In _ _ Hk)) as [Hposted [Hq Hm]].
  split; [auto|].
  unfold perform, receive, handleSearch_settled, setResults, setIsLoading,
    update, bind. simpl.
  do 4 (split; [reflexivity|]).
  intros later q0 m0 earlier Hh Hquiet.
  pose proof (overlay_origin_after_post earlier q0 m0 Hquiet) as Hnone.
  rewrite <- Hh in Hnone. split.
  - unfold origin_list in Isug. rewrite Hnone in Isug. exact Isug.
  - destruct (showSuggestions (state w)) eqn:Hshow; [|reflexivity].
    exfalso. exact (Iov eq_refl Hnone).
Qed.

Lemma research_success_state_witness :
  run search_sent initial_world = Some (world_after search_sent) /\
  nth_error (pending (world_after search_sent)) 0 = Some (Research (lit "abc") 10) /\
  exists w',
    step (Settles 0 (ResearchAnswer (Fulfilled sample_result)))
         (world_after search_sent) = Some w' /\
    results (state w') = Some sample_result /\
    isLoading (state w') = false /\
    suggestions (state w') = [] /\ showSuggestions (state w') = false.
Proof.
  assert (H1 : run search_sent initial_world = Some (world_after search_sent))
    by (vm_compute; reflexivity).
  assert (H2 : nth_error (pending (world_after search_sent)) 0
               = Some (Research (lit "abc") 10))
    by (vm_compute; reflexivity).
  split; [exact H1|]. split; [exact H2|].
  destruct (research_success_state search_sent 0 sample_result H1 H2)
    as (w' & Hstep & _ & Hres & Hload & _ & _ & Hquiet).
  assert (H3 : history (world_after search_sent)
               = [] ++ Posted (Research (lit "abc") 10)
                    :: tl (history (world_after search_sent)))
    by (vm_compute; reflexivity).
  destruct (Hquiet [] _ _ _ H3 (Forall_nil _)) as [Hsug Hshow].
  exists w'. auto.
Defined.

(** C4, as stated, fails: the suggestions asked for by the last keystroke
    arrive after Enter, so that when the research answer comes the list is
    not empty and the dropdown is shown. *)
Lemma late_suggestions_survive :
  run late_suggestions initial_world = Some (world_after late_suggestions) /\
  results (state (world_after late_suggestions)) = Some sample_result /\
  isLoading (state (world_after late_suggestions)) = false /\
  suggestions (state (world_after late_suggestions)) = [sample_item] /\
  showSuggestions (state (world_after late_suggestions)) = true /\
  suggestions_dropdown (state (world_after late_suggestions)) = true.
Proof. repeat apply conj; vm_compute; reflexivity. Qed.

(** C5 (amended).  When an awaited research request is rejected, the error is
    logged and the notice is raised by [alert], [isLoading] becomes false,
    [results] is left as it was and nothing is posted again.  [results] is
    then null provided no research answer was fulfilled since a research
    request was posted. *)
Theorem research_failure_state (evs : list event) (w : World) k q m :
  run evs initial_world = Some w ->
  nth_error (pending w) k = Some (Research q m) ->
  exists w',
    step (Settles k (ResearchAnswer Rejected)) w = Some w' /\
    history w'
    = Alerted (lit "Error conducting research. Make sure the backend is running on port 8000.")
      :: Logged (lit "Research error:")
      :: Received (Research q m) (ResearchAnswer Rejected) :: history w /\
    pending w' = remove_nth k (pending w) /\
    isLoading (state w') = false /\
    results (state w') = results (state w) /\
    (forall later q0 m0 earlier,
        history w = later ++ Posted (Research q0 m0) :: earlier ->
        Forall (fun i => is_research_success i = false) later ->
        results (state w') = None).
Proof.
  intros Hrun Hk.
  destruct (run_invariant evs Hrun) as [_ _ Ires _ _].
  eexists. split; [apply research_settles; exact Hk|].
  unfold perform, receive, handleSearch_settled, setIsLoading, console_error,
    alert, emit, update, bind. simpl.
  split; [reflexivity|]. split; [apply app_nil_r|].
  do 2 (split; [reflexivity|]).
  intros later q0 m0 earlier Hh Hquiet.
  rewrite Ires, Hh. exact (held_results_after_post earlier q0 m0 Hquiet).
Qed.

Lemma research_failure_state_witness :
  run search_sent initial_world = Some (world_after search_sent) /\
  nth_error (pending (world_after search_sent)) 0 = Some (Research (lit "abc") 10) /\
  exists w',
    step (Settles 0 (ResearchAnswer Rejected)) (world_after search_sent) = Some w' /\
    In (Alerted (lit "Error conducting research. Make sure the backend is running on port 8000."))
       (history w') /\
    isLoading (state w') = false /\
    results (state w') = None.
Proof.
  assert (H1 : run search_sent initial_world = Some (world_after search_sent))
    by (vm_compute; reflexivity).
  assert (H2 : nth_error (pending (world_after search_sent)) 0
               = Some (Research (lit "abc") 10))
    by (vm_compute; reflexivity).
  split; [exact H1|]. split; [exact H2|].
  destruct (research_failure_state search_sent 0 H1 H2)
    as (w' & Hstep & Hhist & _ & Hload & _ & Hquiet).
  assert (H3 : history (world_after search_sent)
               = [] ++ Posted (Research (lit "abc") 10)
                    :: tl (history (world_after search_sent)))
    by (vm_compute; reflexivity).
  pose proof (Hquiet [] _ _ _ H3 (Forall_nil _)) as Hnull.
  exists w'. split; [exact Hstep|]. split; [|auto].
  rewrite Hhist. left. reflexivity.
Defined.

(** C5, as stated, fails: a second request, sent by clicking a suggestion
    that arrived late, is answered before the first one fails; after the
    failure and its notice [results] still holds that answer. *)
Lemma failure_keeps_other_result :
  run overlapping_searches initial_world = Some (world_after overlapping_searches) /\
  hd_error (history (world_after overlapping_searches))
  = Some (Alerted (lit "Error conducting research. Make sure the backend is running on port 8000.")) /\
  isLoading (state (world_after overlapping_searches)) = false /\
  results (state (world_after overlapping_searches)) = Some sample_result.
Proof. repeat apply conj; vm_compute; reflexivity. Qed.

(** ** The suggestion dropdown *)

(** C2 (amended).  In every reachable state, [showSuggestions] is true only
    if some suggestion answer was fulfilled with [success] set, the list held
    is the list of the most recent such answer (empty or not; later answers
    that failed or had [success] unset do not count), and no research request
    was posted since.  The dropdown is rendered only if, moreover, that list
    is not empty. *)
Theorem overlay_flag_origin (evs : list event) (w : World) :
  run evs initial_world = Some w ->
  showSuggestions (state w) = true ->
  exists later r d earlier,
    history w = later ++ Received r (SuggestAnswer (Fulfilled d)) :: earlier /\
    Suggestion.success d = true /\
    suggestions (state w) = Suggestion.suggestions d /\
    Forall (fun i => is_research_post i = false /\ is_suggest_success i = false)
           later /\
    (suggestions_dropdown (state w) = true -> Suggestion.suggestions d <> []).
Proof.
  intros Hrun Hshow.
  destruct (run_invariant evs Hrun) as [Isug Iov _ _ _].
  specialize (Iov Hshow). unfold origin_list in Isug.
  destruct (overlay_origin (history w)) as [d|] eqn:Horigin; [|congruence].
  destruct (overlay_origin_found _ Horigin) as (later & r & earlier & Hh & Hok & Hall).
  exists later, r, d, earlier.
  do 4 (split; [assumption|]).
  unfold suggestions_dropdown. rewrite Hshow, Isug. simpl.
  destruct (Suggestion.suggestions d); [discriminate | discriminate].
Qed.

Lemma overlay_flag_origin_witness :
  run late_suggestions initial_world = Some (world_after late_suggestions) /\
  showSuggestions (state (world_after late_suggestions)) = true /\
  exists later r d earlier,
    history (world_after late_suggestions)
    = later ++ Received r (SuggestAnswer (Fulfilled d)) :: earlier /\
    Suggestion.success d = true /\
    suggestions (state (world_after late_suggestions)) = Suggestion.suggestions d /\
    Forall (fun i => is_research_post i = false /\ is_suggest_success i = false)
           later /\
    (suggestions_dropdown (state (world_after late_suggestions)) = true ->
     Suggestion.suggestions d <> []).
Proof.
  assert (H1 : run late_suggestions initial_world
               = Some (world_after late_suggestions))
    by (vm_compute; reflexivity).
  assert (H2 : showSuggestions (state (world_after late_suggestions)) = true)
    by (vm_compute; reflexivity).
  exact (conj H1 (conj H2 (overlay_flag_origin late_suggestions H1 H2))).
Defined.

(** C2, as stated, fails: an answer with [success] set and no suggestion in
    it is the most recent one, and [showSuggestions] is true. *)
Lemma overlay_flag_on_empty_answer :
  run empty_suggestions initial_world = Some (world_after empty_suggestions) /\
  showSuggestions (state (world_after empty_suggestions)) = true /\
  last_suggest_answer (history (world_after empty_suggestions))
  = Some (Fulfilled (Suggestion.mk true [])) /\
  suggestions_dropdown (state (world_after empty_suggestions)) = false.
Proof. repeat apply conj; vm_compute; reflexivity. Qed.

(** Nor does a later answer that fails take the flag back. *)
Lemma overlay_flag_after_failed_answer :
  run failed_refresh initial_world = Some (world_after failed_refresh) /\
  showSuggestions (state (world_after failed_refresh)) = true /\
  last_suggest_answer (history (world_after failed_refresh)) = Some Rejected.
Proof. repeat apply conj; vm_compute; reflexivity. Qed.

(** C9 (amended).  Clicking a suggestion sets the query to its
    [suggested_query] and sets [showSuggestions] to false, and posts no
    suggestion request.  When that text is not blank, exactly one research
    request is posted, for that text and ten sources; when it trims to the
    empty string, nothing is posted. *)
Theorem suggestion_click (suggestion : SuggestionItem.t) (w : World) :
  query (state (perform (handleSuggestionClick suggestion) w))
  = SuggestionItem.suggested_query suggestion /\
  showSuggestions (state (perform (handleSuggestionClick suggestion) w)) = false /\
  (if truthy (trim (SuggestionItem.suggested_query suggestion))
   then
     pending (perform (handleSuggestionClick suggestion) w)
     = pending w ++ [Research (SuggestionItem.suggested_query suggestion) 10] /\
     history (perform (handleSuggestionClick suggestion) w)
     = Posted (Research (SuggestionItem.suggested_query suggestion) 10) :: history w /\
     isLoading (state (perform (handleSuggestionClick suggestion) w)) = true
   else
     pending (perform (handleSuggestionClick suggestion) w) = pending w /\
     history (perform (handleSuggestionClick suggestion) w) = history w /\
     isLoading (state (perform (handleSuggestionClick suggestion) w))
     = isLoading (state w)).
Proof.
  unfold perform, handleSuggestionClick, handleSearch, setQuery,
    setShowSuggestions, setIsLoading, setResults, setSuggestions, axios_post,
    emit, update, bind, ret.
  simpl.
  destruct (truthy (trim (SuggestionItem.suggested_query suggestion)));
    simpl; repeat apply conj; try reflexivity.
  apply app_nil_r.
Qed.

(** A row of the dropdown that is rendered can be clicked, and the click runs
    the handler on the suggestion of that row. *)
Lemma suggestion_row_click (w : World) (index : nat) (suggestion : SuggestionItem.t) :
  suggestions_dropdown (state w) = true ->
  nth_error (suggestions (state w)) index = Some suggestion ->
  step (ClickSuggestion index) w = Some (perform (handleSuggestionClick suggestion) w).
Proof. intros Hd Hn. unfold step. rewrite Hd, Hn. reflexivity. Qed.

(** C9, as stated, fails: a suggestion whose text is blank is shown; the
    click sets the query to it and posts no research request. *)
Lemma blank_suggestion_posts_nothing :
  run blank_suggestion_clicked initial_world
  = Some (world_after blank_suggestion_clicked) /\
  query (state (world_after blank_suggestion_clicked))
  = SuggestionItem.suggested_query blank_item /\
  showSuggestions (state (world_after blank_suggestion_clicked)) = false /\
  pending (world_after blank_suggestion_clicked) = [] /\
  existsb is_research_post (history (world_after blank_suggestion_clicked)) = false.
Proof. repeat apply conj; vm_compute; reflexivity. Qed.

(** ** Uploading (handleFileUpload) *)

(** C10.  For a file list that is not empty, the call sets [isUploading],
    clears [uploadSuccess] and posts one request with the files.  When that
    request settles, [isUploading] is false whatever the outcome.  Fulfilled
    with [success] set, the files are appended to [uploadedFiles]: as many
    entries as files, with their names, in order.  Rejected (a network error
    or a status outside 2xx), [uploadedFiles] is unchanged and a notice is
    raised by [alert].  Fulfilled with [success] unset, [uploadedFiles] is
    unchanged.  A null or empty file list changes nothing. *)
Theorem upload_files (fs : list File.t) (w : World) :
  fs <> [] ->
  perform (handleFileUpload (Some fs)) w
  = mkWorld (mkState (query (state w)) (isLoading (state w)) (results (state w))
                     (suggestions (state w)) (showSuggestions (state w))
                     (uploadedFiles (state w)) true false)
            (pending w ++ [Ingest fs]) (Posted (Ingest fs) :: history w)
            (timers w) /\
  (forall w2 k o,
      nth_error (pending w2) k = Some (Ingest fs) ->
      exists w3,
        step (Settles k (IngestAnswer o)) w2 = Some w3 /\
        isUploading (state w3) = false /\
        match o with
        | Fulfilled d =>
            if IngestResponse.success d then
              uploadedFiles (state w3) = uploadedFiles (state w2) ++ fs /\
              List.length (uploadedFiles (state w3))
              = List.length (uploadedFiles (state w2)) + List.length fs /\
              map File.name (uploadedFiles (state w3))
              = map File.name (uploadedFiles (state w2)) ++ map File.name fs
            else
              uploadedFiles (state w3) = uploadedFiles (state w2)
        | Rejected =>
            uploadedFiles (state w3) = uploadedFiles (state w2) /\
            history w3
            = Alerted (lit "Error uploading files. Make sure the backend is running.")
              :: Logged (lit "Upload error:")
              :: Received (Ingest fs) (IngestAnswer Rejected) :: history w2
        end) /\
  perform (handleFileUpload (Some [])) w = w /\
  perform (handleFileUpload None) w = w.
Proof.
  intros Hfs. repeat apply conj.
  - unfold perform, handleFileUpload, setIsUploading, setUploadSuccess,
      axios_post, emit, update, bind, ret.
    destruct fs as [|f fs]; [congruence|]. simpl.
    rewrite Nat.add_0_r. reflexivity.
  - intros w2 k o Hk. eexists. split; [apply ingest_settles; exact Hk|].
    unfold perform, receive, handleFileUpload_settled, setUploadedFiles,
      setUploadSuccess, setIsUploading, setTimeout, console_error, alert,
      emit, update, bind, ret.
    destruct o as [d|]; simpl.
    + destruct (IngestResponse.success d); simpl.
      * repeat apply conj; try reflexivity.
        -- apply length_app.
        -- apply map_app.
      * auto.
    + auto.
  - unfold perform, handleFileUpload, ret. destruct w as [s p h t]; simpl.
    rewrite app_nil_r, Nat.add_0_r. reflexivity.
  - unfold perform, handleFileUpload, ret. destruct w as [s p h t]; simpl.
    rewrite app_nil_r, Nat.add_0_r. reflexivity.
Qed.

Lemma upload_files_witness :
  sample_files <> [] /\
  nth_error (pending (world_after upload_sent)) 0 = Some (Ingest sample_files) /\
  exists w3,
    step (Settles 0 (IngestAnswer (Fulfilled (IngestResponse.mk true))))
         (world_after upload_sent) = Some w3 /\
    isUploading (state w3) = false /\
    map File.name (uploadedFiles (state w3)) = [lit "notes.md"; lit "paper.pdf"].
Proof.
  assert (H1 : sample_files <> []) by discriminate.
  assert (H2 : nth_error (pending (world_after upload_sent)) 0
               = Some (Ingest sample_files))
    by (vm_compute; reflexivity).
  split; [exact H1|]. split; [exact H2|].
  destruct (upload_files initial_world H1) as (_ & Hsettle & _).
  destruct (Hsettle (world_after upload_sent) 0
                    (Fulfilled (IngestResponse.mk true)) H2)
    as (w3 & Hstep & Hup & _ & _ & Hnames).
  exists w3. split; [exact Hstep|]. split; [exact Hup|].
  rewrite Hnames. vm_compute. reflexivity.
Defined.

(** A fulfilled upload with [success] unset raises no notice: the answer is
    the only addition to the history. *)
Lemma upload_unsuccessful_is_silent (w : World) k fs :
  nth_error (pending w) k = Some (Ingest fs) ->
  exists w',
    step (Settles k (IngestAnswer (Fulfilled (IngestResponse.mk false)))) w = Some w' /\
    history w'
    = Received (Ingest fs) (IngestAnswer (Fulfilled (IngestResponse.mk false)))
      :: history w.
Proof.
  intros Hk. eexists. split; [apply ingest_settles; exact Hk|]. reflexivity.
Qed.

(** ** Export (exportReport) *)

Lemma split_lines_aux_one_line (cur s : jsstring) :
  ~ In LF s -> split_lines_aux cur s = [rev cur ++ s].
Proof.
  revert cur. induction s as [|c s IH]; intros cur Hno; simpl.
  - rewrite app_nil_r. reflexivity.
  - destruct (N.eqb_spec c LF) as [->|Hc].
    + exfalso. apply Hno. left. reflexivity.
    + rewrite IH.
      * simpl. rewrite <- app_assoc. reflexivity.
      * intros Hin. apply Hno. right. exact Hin.
Qed.

Lemma split_lines_aux_break (cur a b : jsstring) :
  split_lines_aux cur (a ++ LF :: b) = split_lines_aux cur a ++ split_lines b.
Proof.
  revert cur. induction a as [|c a IH]; intros cur; simpl.
  - reflexivity.
  - destruct (c =? LF)%N.
    + simpl. f_equal. apply IH.
    + apply IH.
Qed.

Lemma split_lines_break (a b : jsstring) :
  split_lines (a ++ LF :: b) = split_lines a ++ split_lines b.
Proof. apply split_lines_aux_break. Qed.

Lemma split_lines_one_line (s : jsstring) : ~ In LF s -> split_lines s = [s].
Proof. intros H. exact (split_lines_aux_one_line [] s H). Qed.

(** The bulleted findings, one per line, when no finding has a line break
    in it. *)
Lemma split_lines_bullets (findings : list jsstring) :
  findings <> [] ->
  Forall (fun f => ~ In LF f) findings ->
  split_lines (join NL (map (fun f => lit "- " ++ f) findings))
  = map (fun f => lit "- " ++ f) findings.
Proof.
  assert (Hbullet : forall f, ~ In LF f -> ~ In LF (lit "- " ++ f)).
  { intros f Hf [H|[H|H]]; [discriminate H | discriminate H | exact (Hf H)]. }
  induction findings as [|f rest IH]; intros Hne Hall; [congruence|].
  inversion Hall as [|? ? Hf Hrest]; subst.
  destruct rest as [|g rest].
  - simpl. apply split_lines_one_line. apply (Hbullet f Hf).
  - change (join NL (map (fun f => lit "- " ++ f) (f :: g :: rest)))
      with ((lit "- " ++ f) ++ LF :: join NL (map (fun f => lit "- " ++ f) (g :: rest))).
    rewrite split_lines_break, IH; [|discriminate|exact Hrest].
    rewrite (split_lines_one_line _ (Hbullet f Hf)). reflexivity.
Qed.

Lemma report_text_lines (r : ResearchResult.t) :
  ResearchReport.key_findings (ResearchResult.research_report r) <> [] ->
  Forall (fun f => ~ In LF f)
         (ResearchReport.key_findings (ResearchResult.research_report r)) ->
  split_lines (report_text r)
  = [lit "# Research Report"; []]
    ++ split_lines (ResearchReport.summary (ResearchResult.research_report r))
    ++ [[]; lit "## Key Findings"]
    ++ map (fun f => lit "- " ++ f)
           (ResearchReport.key_findings (ResearchResult.research_report r)).
Proof.
  intros Hne Hall. unfold report_text.
  set (summary := ResearchReport.summary (ResearchResult.research_report r)).
  set (bullets := join NL _).
  change (split_lines
            (lit "# Research Report" ++ LF ::
             ([] ++ LF ::
              (summary ++ LF ::
               ([] ++ LF ::
                (lit "## Key Findings" ++ LF :: bullets)))))
          = [lit "# Research Report"; []] ++ split_lines summary
            ++ [[]; lit "## Key Findings"]
            ++ map (fun f => lit "- " ++ f)
                   (ResearchReport.key_findings (ResearchResult.research_report r))).
  rewrite !split_lines_break. unfold bullets.
  rewrite (split_lines_bullets Hne Hall).
  assert (H1 : split_lines (lit "# Research Report") = [lit "# Research Report"])
    by (vm_compute; reflexivity).
  assert (H2 : split_lines (lit "## Key Findings") = [lit "## Key Findings"])
    by (vm_compute; reflexivity).
  rewrite H1, H2. reflexivity.
Qed.

(** The lines of the exported text when there is no finding. *)
Lemma report_text_lines_no_finding (r : ResearchResult.t) :
  ResearchReport.key_findings (ResearchResult.research_report r) = [] ->
  split_lines (report_text r)
  = [lit "# Research Report"; []]
    ++ split_lines (ResearchReport.summary (ResearchResult.research_report r))
    ++ [[]; lit "## Key Findings"; []].
Proof.
  intros Hnone. unfold report_text. rewrite Hnone. simpl join.
  set (summary := ResearchReport.summary (ResearchResult.research_report r)).
  change (split_lines
            (lit "# Research Report" ++ LF ::
             ([] ++ LF ::
              (summary ++ LF ::
               ([] ++ LF ::
                (lit "## Key Findings" ++ LF :: [])))))
          = [lit "# Research Report"; []] ++ split_lines summary
            ++ [[]; lit "## Key Findings"; []]).
  rewrite !split_lines_break.
  assert (H1 : split_lines (lit "# Research Report") = [lit "# Research Report"])
    by (vm_compute; reflexivity).
  assert (H2 : split_lines (lit "## Key Findings") = [lit "## Key Findings"])
    by (vm_compute; reflexivity).
  rewrite H1, H2. reflexivity.
Qed.

(** C8 (amended).  With no result, [exportReport] produces nothing.  With a
    result, the formats [markdown] and [pdf] give the same text, under the
    names [research-report.markdown] and [research-report.pdf].  The text is
    [# Research Report], an empty line, the summary, an empty line,
    [## Key Findings], a line break, and the findings as [- <finding>] items
    in their order, joined by single line breaks; so it starts with
    [# Research Report] and contains the summary.  When no finding has a line
    break in it, the lines after the [## Key Findings] line are exactly these
    items, one line per finding in order (one empty line when there is no
    finding).  The text is computed from the summary and the findings alone:
    results that agree on both give the same text, whatever their sources. *)
Theorem export_text (JSON_stringify : ResearchResult.t -> N -> jsstring)
    (s : AppState) :
  (results s = None -> forall fmt, exportReport JSON_stringify s fmt = None) /\
  (forall r, results s = Some r ->
     exportReport JSON_stringify s markdown
     = Some (mkDownload (lit "research-report.markdown") (report_text r)
                        (lit "text/plain")) /\
     exportReport JSON_stringify s pdf
     = Some (mkDownload (lit "research-report.pdf") (report_text r)
                        (lit "text/plain")) /\
     option_map blob (exportReport JSON_stringify s pdf)
     = option_map blob (exportReport JSON_stringify s markdown) /\
     startsWith (report_text r) (lit "# Research Report") = true /\
     includes (report_text r)
              (ResearchReport.summary (ResearchResult.research_report r)) = true /\
     report_text r
     = lit "# Research Report" ++ NL ++ NL
       ++ ResearchReport.summary (ResearchResult.research_report r)
       ++ NL ++ NL ++ lit "## Key Findings" ++ NL
       ++ join NL (map (fun f => lit "- " ++ f)
                       (ResearchReport.key_findings (ResearchResult.research_report r))) /\
     (Forall (fun f => ~ In LF f)
             (ResearchReport.key_findings (ResearchResult.research_report r)) ->
      split_lines (report_text r)
      = [lit "# Research Report"; []]
        ++ split_lines (ResearchReport.summary (ResearchResult.research_report r))
        ++ [[]; lit "## Key Findings"]
        ++ match ResearchReport.key_findings (ResearchResult.research_report r) with
           | [] => [[]]
           | findings => map (fun f => lit "- " ++ f) findings
           end) /\
     (forall r',
         ResearchReport.summary (ResearchResult.research_report r')
         = ResearchReport.summary (ResearchResult.research_report r) ->
         ResearchReport.key_findings (ResearchResult.research_report r')
         = ResearchReport.key_findings (ResearchResult.research_report r) ->
         report_text r' = report_text r)).
Proof.
  split.
  - intros Hnone fmt. unfold exportReport. rewrite Hnone. reflexivity.
  - intros r Hr. repeat apply conj.
    + unfold exportReport. rewrite Hr. reflexivity.
    + unfold exportReport. rewrite Hr. reflexivity.
    + unfold exportReport. rewrite Hr. reflexivity.
    + unfold report_text. apply startsWith_app.
    + unfold report_text.
      change (lit "# Research Report" ++ NL ++ NL ++
              ResearchReport.summary (ResearchResult.research_report r) ++ ?rest)
        with ((lit "# Research Report" ++ NL ++ NL) ++
              ResearchReport.summary (ResearchResult.research_report r) ++ rest).
      rewrite <- !app_assoc.
      rewrite (app_assoc (lit "# Research Report")), (app_assoc _ NL).
      apply includes_app.
    + reflexivity.
    + intros Hall.
      destruct (ResearchReport.key_findings (ResearchResult.research_report r))
        as [|f rest] eqn:Hfindings.
      * exact (report_text_lines_no_finding r Hfindings).
      * rewrite <- Hfindings in *. apply report_text_lines; [|exact Hall].
        rewrite Hfindings. discriminate.
    + intros r' Hs Hf. unfold report_text. rewrite Hs, Hf. reflexivity.
Qed.

Lemma export_text_witness :
  results showing_sample = Some sample_result /\
  Forall (fun f => ~ In LF f)
         (ResearchReport.key_findings (ResearchResult.research_report sample_result)) /\
  exportReport (fun _ _ => lit "{}") showing_sample pdf
  = Some (mkDownload (lit "research-report.pdf") (report_text sample_result)
                     (lit "text/plain")) /\
  split_lines (report_text sample_result)
  = [ lit "# Research Report"; [];
      lit "As shown in Caching at Scale, caching lowers latency.";
      []; lit "## Key Findings";
      lit "- Hit rate drives latency"; lit "- Cold starts dominate p99" ].
Proof.
  assert (H1 : results showing_sample = Some sample_result) by reflexivity.
  assert (H3 : Forall (fun f => ~ In LF f)
                 (ResearchReport.key_findings
                    (ResearchResult.research_report sample_result))).
  { repeat constructor; vm_compute; intuition discriminate. }
  destruct (export_text (fun _ _ => lit "{}") showing_sample) as [_ Hsome].
  destruct (Hsome sample_result H1) as (_ & Hpdf & _ & _ & _ & _ & Hlines & _).
  repeat apply conj; try assumption.
  rewrite (Hlines H3). vm_compute. reflexivity.
Defined.

(** C8, as stated, fails: the summary of the sample result cites its source
    by title, so the exported text contains a source title. *)
Lemma export_text_repeats_source_title :
  results showing_sample = Some sample_result /\
  In sample_source
     (ResearchReport.sources (ResearchResult.research_report sample_result)) /\
  (forall JSON_stringify,
      option_map blob (exportReport JSON_stringify showing_sample markdown)
      = Some (report_text sample_result)) /\
  includes (report_text sample_result) (Source.title sample_source) = true.
Proof.
  repeat apply conj.
  - reflexivity.
  - left. reflexivity.
  - intros JSON_stringify. reflexivity.
  - vm_compute. reflexivity.
Qed.

(** Nor is there always one line per finding: a finding with a line break in
    it makes two lines of the exported text. *)
Lemma export_text_finding_over_two_lines :
  ResearchReport.key_findings (ResearchResult.research_report two_line_result)
  = [lit "first" ++ NL ++ lit "second"] /\
  (forall JSON_stringify,
      option_map blob (exportReport JSON_stringify (showing two_line_result) markdown)
      = Some (report_text two_line_result)) /\
  split_lines (report_text two_line_result)
  = [ lit "# Research Report"; []; lit "Summary."; []; lit "## Key Findings";
      lit "- first"; lit "second" ].
Proof.
  repeat apply conj.
  - reflexivity.
  - intros JSON_stringify. reflexivity.
  - vm_compute. reflexivity.
Qed.

(** * Further properties of the component *)

(** ** Removing an awaited request *)

Lemma length_remove_nth {A} (k : nat) (l : list A) (x : A) :
  nth_error l k = Some x -> S (List.length (remove_nth k l)) = List.length l.
Proof.
  revert k. induction l as [|y l IH]; intros [|k] H; simpl in *;
    try discriminate; [reflexivity|].
  f_equal. exact (IH k H).
Qed.

Lemma filter_remove_nth_other {A} (f : A -> bool) (k : nat) (l : list A) (x : A) :
  nth_error l k = Some x -> f x = false ->
  filter f (remove_nth k l) = filter f l.
Proof.
  revert k. induction l as [|y l IH]; intros [|k] H Hx; simpl in *;
    try discriminate.
  - injection H as ->. rewrite Hx. reflexivity.
  - rewrite (IH k H Hx). reflexivity.
Qed.

Lemma filter_remove_nth_same {A} (f : A -> bool) (k : nat) (l : list A) (x : A) :
  nth_error l k = Some x -> f x = true ->
  S (List.length (filter f (remove_nth k l))) = List.length (filter f l).
Proof.
  revert k. induction l as [|y l IH]; intros [|k] H Hx; simpl in *;
    try discriminate.
  - injection H as ->. rewrite Hx. reflexivity.
  - destruct (f y); simpl; [f_equal|]; exact (IH k H Hx).
Qed.

Lemma existsb_remove_nth_other {A} (f : A -> bool) (k : nat) (l : list A) (x : A) :
  nth_error l k = Some x -> f x = false ->
  existsb f (remove_nth k l) = existsb f l.
Proof.
  revert k. induction l as [|y l IH]; intros [|k] H Hx; simpl in *;
    try discriminate.
  - injection H as ->. rewrite Hx. reflexivity.
  - rewrite (IH k H Hx). reflexivity.
Qed.

(** ** The session invariant *)

Lemma session_invariant_initial : session_invariant initial_world.
Proof.
  constructor; simpl; try reflexivity; try discriminate.
  intros r [].
Qed.

Ltac list_norm :=
  rewrite ?app_nil_r, ?filter_app, ?existsb_app, ?length_app, ?Nat.add_0_r;
  simpl;
  rewrite ?Nat.add_0_r, ?orb_false_r, ?orb_true_r.

Ltac posted_cases H :=
  simpl in H;
  repeat match type of H with
         | _ \/ _ => destruct H as [H|H]
         | Posted _ = Posted _ => injection H as <-
         | _ = Posted _ => discriminate H
         end.

Lemma step_session_invariant (e : event) (w w' : World) :
  session_invariant w -> step e w = Some w' -> session_invariant w'.
Proof.
  intros [Iup Iban Iload Ifiles Ialerts Ipost] Hstep.
  destruct w as [s p h t]; simpl in *.
  destruct e as [value|key shiftKey| |index|files|k a| ]; simpl in Hstep.
  - (* Change *)
    destruct (textarea_disabled s) eqn:Hdis; [discriminate|].
    injection Hstep as <-. run_handler.
    destruct (List.length value <? 3) eqn:Hlen; simpl;
      constructor; simpl; list_norm; auto.
    intros r Hr. posted_cases Hr; auto.
    simpl. apply Nat.ltb_ge. exact Hlen.
  - (* KeyPress *)
    destruct (textarea_disabled s) eqn:Hdis; [discriminate|].
    injection Hstep as <-. run_handler.
    destruct (code_units_eqb key (lit "Enter") && negb shiftKey); simpl;
      [destruct (negb (truthy (trim (query s)))) eqn:Hq; simpl|];
      constructor; simpl; list_norm; auto.
    intros r Hr. posted_cases Hr; auto.
    simpl. split; [|reflexivity].
    apply truthy_true_iff. apply negb_false_iff. exact Hq.
  - (* ClickSearch *)
    destruct (search_button_disabled s) eqn:Hdis; [discriminate|].
    injection Hstep as <-. run_handler.
    destruct (negb (truthy (trim (query s)))) eqn:Hq; simpl;
      constructor; simpl; list_norm; auto.
    intros r Hr. posted_cases Hr; auto.
    simpl. split; [|reflexivity].
    apply truthy_true_iff. apply negb_false_iff. exact Hq.
  - (* ClickSuggestion *)
    destruct (suggestions_dropdown s) eqn:Hdd; [|discriminate].
    destruct (nth_error (suggestions s) index) as [sg|] eqn:Hnth; [|discriminate].
    injection Hstep as <-. run_handler.
    destruct (negb (truthy (trim (SuggestionItem.suggested_query sg)))) eqn:Hq;
      simpl; constructor; simpl; list_norm; auto.
    intros r Hr. posted_cases Hr; auto.
    simpl. split; [|reflexivity].
    apply truthy_true_iff. apply negb_false_iff. exact Hq.
  - (* FilesChosen *)
    unfold upload_button_disabled in Hstep.
    destruct (isUploading s) eqn:Hup; [discriminate|].
    injection Hstep as <-. run_handler.
    destruct files as [fs|]; simpl;
      [destruct (List.length fs =? 0) eqn:Hlen; simpl|];
      constructor; simpl; list_norm; try rewrite Hup; auto; try discriminate.
    + rewrite Iup. reflexivity.
    + intros r Hr. posted_cases Hr; auto.
      simpl. intros ->. discriminate.
  - (* Settles *)
    destruct (nth_error p k) as [r0|] eqn:Hk; [|discriminate].
    destruct r0 as [q m|q|fs], a as [o|o|o]; try discriminate;
      injection Hstep as <-; run_handler.
    + (* /research *)
      destruct o as [data|]; simpl; constructor; simpl; list_norm;
        try (rewrite (filter_remove_nth_other is_ingest_request k p Hk eq_refl));
        auto; try discriminate.
      * intros r Hr. posted_cases Hr; auto.
      * f_equal. exact Ialerts.
      * intros r Hr. posted_cases Hr; auto.
    + (* /suggest *)
      destruct o as [data|]; simpl;
        [destruct (Suggestion.success data) eqn:Hok; simpl|];
        constructor; simpl; list_norm;
        try (rewrite (filter_remove_nth_other is_ingest_request k p Hk eq_refl));
        try (rewrite (existsb_remove_nth_other is_research_request k p Hk eq_refl));
        auto;
        intros r Hr; posted_cases Hr; auto.
    + (* /ingest *)
      pose proof (filter_remove_nth_same is_ingest_request k p Hk eq_refl) as Hcount.
      assert (Hup : isUploading s = true).
      { destruct (isUploading s); [reflexivity|]. rewrite Iup in Hcount. discriminate. }
      rewrite Hup in Iup. rewrite Iup in Hcount. injection Hcount as Hcount.
      destruct o as [data|]; simpl;
        [destruct (IngestResponse.success data) eqn:Hok; simpl|];
        constructor; simpl; list_norm; try rewrite Hok;
        try (rewrite (existsb_remove_nth_other is_research_request k p Hk eq_refl));
        auto; try lia; try congruence.
      * intros r Hr. posted_cases Hr; auto.
      * intros r Hr. posted_cases Hr; auto.
      * f_equal. exact Ialerts.
      * intros r Hr. posted_cases Hr; auto.
  - (* TimerFires *)
    destruct t as [|n]; [discriminate|].
    injection Hstep as <-. run_handler.
    constructor; simpl; list_norm; auto; discriminate.
Qed.

Lemma run_session_invariant (evs : list event) (w : World) :
  run evs initial_world = Some w -> session_invariant w.
Proof.
  intros Hrun.
  assert (H : reachable w) by exact (run_reachable evs reachable_initial Hrun).
  clear Hrun. induction H as [|e w w' _ IH Hstep].
  - exact session_invariant_initial.
  - exact (step_session_invariant e IH Hstep).
Qed.

(** ** Keys (handleKeyPress) *)

Lemma code_units_eqb_eq (a b : jsstring) : code_units_eqb a b = true <-> a = b.
Proof.
  revert b. induction a as [|x a IH]; intros [|y b]; simpl;
    try (split; [discriminate | discriminate]); [tauto|].
  rewrite andb_true_iff, N.eqb_eq, IH. split.
  - intros [-> ->]. reflexivity.
  - intros H. injection H as -> ->. auto.
Qed.

(** X1.  A key press that is not Enter, or Enter with Shift held, changes
    nothing and posts nothing. *)
Theorem key_press_without_submit (key : jsstring) (shiftKey : bool) (w : World) :
  key <> Enter \/ shiftKey = true ->
  perform (handleKeyPress key shiftKey) w = w.
Proof.
  intros H. apply perform_silent. unfold handleKeyPress.
  destruct (code_units_eqb key (lit "Enter")) eqn:Hkey; simpl.
  - destruct H as [H| ->]; [|reflexivity].
    exfalso. apply H. apply code_units_eqb_eq. exact Hkey.
  - reflexivity.
Qed.

Lemma key_press_without_submit_witness :
  (Enter <> Enter \/ true = true) /\
  perform (handleKeyPress Enter true) (world_after search_sent)
  = world_after search_sent.
Proof.
  assert (H : Enter <> Enter \/ true = true) by (right; reflexivity).
  exact (conj H (key_press_without_submit (world_after search_sent) H)).
Defined.

(** X2.  Whenever the send button is enabled, pressing Enter without Shift
    in the textarea and clicking the button lead to the same world. *)
Theorem enter_is_click (w : World) :
  search_button_disabled (state w) = false ->
  step (KeyPress Enter false) w = step ClickSearch w.
Proof.
  intros Hdis. unfold step. rewrite Hdis.
  unfold search_button_disabled in Hdis. apply orb_false_iff in Hdis.
  destruct Hdis as [Hload _]. unfold textarea_disabled. rewrite Hload.
  reflexivity.
Qed.

Lemma enter_is_click_witness :
  search_button_disabled (state (world_after [Change (lit "abc")])) = false /\
  step (KeyPress Enter false) (world_after [Change (lit "abc")])
  = step ClickSearch (world_after [Change (lit "abc")]).
Proof.
  assert (H : search_button_disabled (state (world_after [Change (lit "abc")])) = false)
    by (vm_compute; reflexivity).
  exact (conj H (enter_is_click (world_after [Change (lit "abc")]) H)).
Defined.

(** ** Submitting a query that is not blank *)

(** X3.  [handleSearch] on a text that is not blank sets [isLoading], clears
    [results] and the suggestions, hides the dropdown, and posts exactly one
    research request for the text as given (not trimmed) and ten sources.
    Right after, the loading indicator is the panel shown and the textarea
    and the send button are disabled. *)
Theorem submit_effect (arg : option jsstring) (w : World) :
  trim (searchQuery_of arg (state w)) <> [] ->
  perform (handleSearch arg) w
  = mkWorld (mkState (query (state w)) true None [] false
                     (uploadedFiles (state w)) (isUploading (state w))
                     (uploadSuccess (state w)))
            (pending w ++ [Research (searchQuery_of arg (state w)) 10])
            (Posted (Research (searchQuery_of arg (state w)) 10) :: history w)
            (timers w) /\
  main_panels (state (perform (handleSearch arg) w)) = [LoadingIndicator] /\
  suggestions_dropdown (state (perform (handleSearch arg) w)) = false /\
  textarea_disabled (state (perform (handleSearch arg) w)) = true /\
  search_button_disabled (state (perform (handleSearch arg) w)) = true.
Proof.
  intros Hq. apply truthy_true_iff in Hq.
  assert (H : perform (handleSearch arg) w
              = mkWorld (mkState (query (state w)) true None [] false
                                 (uploadedFiles (state w)) (isUploading (state w))
                                 (uploadSuccess (state w)))
                        (pending w ++ [Research (searchQuery_of arg (state w)) 10])
                        (Posted (Research (searchQuery_of arg (state w)) 10) :: history w)
                        (timers w)).
  { unfold perform, handleSearch, setIsLoading, setResults, setSuggestions,
      setShowSuggestions, axios_post, emit, update, bind, ret, read.
    destruct arg as [text|]; simpl in *; rewrite Hq; simpl;
      rewrite Nat.add_0_r; reflexivity. }
  rewrite H. repeat apply conj; reflexivity.
Qed.

Lemma submit_effect_witness :
  trim (searchQuery_of (Some (lit "  cache ")) (state initial_world)) <> [] /\
  pending (perform (handleSearch (Some (lit "  cache "))) initial_world)
  = [Research (lit "  cache ") 10].
Proof.
  assert (H : trim (searchQuery_of (Some (lit "  cache ")) (state initial_world)) <> [])
    by (vm_compute; discriminate).
  split; [exact H|].
  rewrite (proj1 (submit_effect (Some (lit "  cache ")) initial_world H)).
  reflexivity.
Defined.

(** ** Typing three code units or more *)

(** X4.  For a value of three code units or more, white space included, the
    change handler stores it as the query and posts exactly one suggestion
    request for the value as typed; the suggestions shown so far stay. *)
Theorem long_query_posts_once (value : jsstring) (w : World) :
  3 <= List.length value ->
  perform (handleQueryChange value) w
  = mkWorld (mkState value (isLoading (state w)) (results (state w))
                     (suggestions (state w)) (showSuggestions (state w))
                     (uploadedFiles (state w)) (isUploading (state w))
                     (uploadSuccess (state w)))
            (pending w ++ [Suggest value])
            (Posted (Suggest value) :: history w)
            (timers w).
Proof.
  intros Hlen. apply Nat.ltb_ge in Hlen.
  unfold perform, handleQueryChange, getSuggestions, setQuery, update, bind,
    ret, axios_post, emit.
  simpl. rewrite Hlen. simpl. rewrite Nat.add_0_r. reflexivity.
Qed.

Lemma long_query_posts_once_witness :
  3 <= List.length (lit "   ") /\
  pending (perform (handleQueryChange (lit "   ")) initial_world)
  = [Suggest (lit "   ")].
Proof.
  assert (H : 3 <= List.length (lit "   ")) by (simpl; lia).
  split; [exact H|].
  rewrite (long_query_posts_once (lit "   ") initial_world H). reflexivity.
Defined.

(** ** Answers *)

Lemma suggest_settles (w : World) k q o :
  nth_error (pending w) k = Some (Suggest q) ->
  step (Settles k (SuggestAnswer o)) w
  = Some (perform (getSuggestions_settled o)
                  (receive k (Suggest q) (SuggestAnswer o) w)).
Proof. intros H. unfold step. rewrite H. reflexivity. Qed.

(** X5.  When an awaited suggestion request settles: fulfilled with
    [success] set, the suggestion list is replaced by the answer's list and
    [showSuggestions] becomes true, whichever request of the awaited ones it
    answers, and nothing else changes; fulfilled with [success] unset, or
    rejected, the state is unchanged.  In no case is a notice raised. *)
Theorem suggest_answer_effect (w : World) k q (o : settled Suggestion.t) :
  nth_error (pending w) k = Some (Suggest q) ->
  exists w',
    step (Settles k (SuggestAnswer o)) w = Some w' /\
    pending w' = remove_nth k (pending w) /\
    alerts_raised (history w') = alerts_raised (history w) /\
    state w'
    = match o with
      | Fulfilled d =>
          if Suggestion.success d then
            mkState (query (state w)) (isLoading (state w)) (results (state w))
                    (Suggestion.suggestions d) true
                    (uploadedFiles (state w)) (isUploading (state w))
                    (uploadSuccess (state w))
          else state w
      | Rejected => state w
      end.
Proof.
  intros Hk. eexists. split; [apply suggest_settles; exact Hk|].
  unfold perform, receive, getSuggestions_settled, setSuggestions,
    setShowSuggestions, console_error, emit, update, bind, ret.
  destruct w as [s p h t]; simpl.
  destruct o as [d|]; [destruct (Suggestion.success d)|]; simpl;
    rewrite app_nil_r; repeat apply conj; reflexivity.
Qed.

Lemma suggest_answer_effect_witness :
  nth_error (pending (world_after [Change (lit "abc")])) 0 = Some (Suggest (lit "abc")) /\
  exists w',
    step (Settles 0 (SuggestAnswer Rejected)) (world_after [Change (lit "abc")])
    = Some w' /\
    state w' = state (world_after [Change (lit "abc")]).
Proof.
  assert (H : nth_error (pending (world_after [Change (lit "abc")])) 0
              = Some (Suggest (lit "abc")))
    by (vm_compute; reflexivity).
  split; [exact H|].
  destruct (suggest_answer_effect (world_after [Change (lit "abc")]) 0 Rejected H)
    as (w' & Hstep & _ & _ & Hstate).
  exists w'. auto.
Defined.

(** The awaited request that settles leaves, and nothing is posted. *)
Lemma settle_removes_one (w w' : World) k (a : answer) :
  step (Settles k a) w = Some w' ->
  pending w' = remove_nth k (pending w) /\
  S (List.length (pending w')) = List.length (pending w) /\
  filter is_post (history w') = filter is_post (history w).
Proof.
  intros Hstep. unfold step in Hstep.
  destruct (nth_error (pending w) k) as [r|] eqn:Hk; [|discriminate].
  assert (H : pending w' = remove_nth k (pending w) /\
              filter is_post (history w') = filter is_post (history w)).
  { destruct w as [s p h t]; simpl in *.
    destruct r as [q m|q|fs], a as [o|o|o]; try discriminate;
      injection Hstep as <-; run_handler;
      destruct o as [d|]; simpl;
      try (destruct (Suggestion.success d)); try (destruct (IngestResponse.success d));
      simpl; rewrite app_nil_r; auto. }
  destruct H as [Hp Hh]. rewrite Hp.
  repeat apply conj; try assumption; try reflexivity.
  exact (length_remove_nth k (pending w) Hk).
Qed.

(** X6.  No answer makes the component post a request: when an awaited
    request settles, whatever its kind and outcome, it leaves the awaited
    ones and nothing is added to them, and the posts in the history are the
    same (no retry, no follow-up request). *)
Theorem answers_post_nothing (w w' : World) k (a : answer) :
  step (Settles k a) w = Some w' ->
  pending w' = remove_nth k (pending w) /\
  S (List.length (pending w')) = List.length (pending w) /\
  filter is_post (history w') = filter is_post (history w).
Proof. exact (@settle_removes_one w w' k a). Qed.

Lemma answers_post_nothing_witness :
  step (Settles 0 (ResearchAnswer Rejected)) (world_after search_sent)
  = Some (world_after (search_sent ++ [Settles 0 (ResearchAnswer Rejected)])) /\
  pending (world_after (search_sent ++ [Settles 0 (ResearchAnswer Rejected)])) = [].
Proof.
  assert (H : step (Settles 0 (ResearchAnswer Rejected)) (world_after search_sent)
              = Some (world_after (search_sent ++ [Settles 0 (ResearchAnswer Rejected)])))
    by (vm_compute; reflexivity).
  split; [exact H|].
  rewrite (proj1 (answers_post_nothing _ _ _ H)). vm_compute. reflexivity.
Defined.

(** ** Searching while a search is awaited *)

(** X7.  While [isLoading] is set, the only event that can post a research
    request is a click on a row of the suggestion dropdown, and the request
    is for the text of that row: the textarea and the send button are
    disabled. *)
Theorem search_while_loading (e : event) (w w' : World) q m :
  isLoading (state w) = true ->
  step e w = Some w' ->
  pending w' = pending w ++ [Research q m] ->
  exists index suggestion,
    e = ClickSuggestion index /\
    nth_error (suggestions (state w)) index = Some suggestion /\
    q = SuggestionItem.suggested_query suggestion.
Proof.
  intros Hload Hstep Hpending.
  destruct w as [s p h t]; simpl in *.
  destruct e as [value|key shiftKey| |index|files|k a| ]; simpl in Hstep.
  - unfold textarea_disabled in Hstep. rewrite Hload in Hstep. discriminate.
  - unfold textarea_disabled in Hstep. rewrite Hload in Hstep. discriminate.
  - unfold search_button_disabled in Hstep. rewrite Hload in Hstep. discriminate.
  - destruct (suggestions_dropdown s); [|discriminate].
    destruct (nth_error (suggestions s) index) as [sg|] eqn:Hnth; [|discriminate].
    injection Hstep as <-. run_handler.
    destruct (negb (truthy (trim (SuggestionItem.suggested_query sg)))); simpl in *.
    + rewrite <- (app_nil_r (p ++ [])) in Hpending at 1.
      rewrite app_nil_r in Hpending. apply app_inv_head in Hpending. discriminate.
    + apply app_inv_head in Hpending. injection Hpending as <- _.
      exists index, sg. auto.
  - destruct (upload_button_disabled s); [discriminate|].
    injection Hstep as <-. run_handler.
    destruct files as [fs|]; simpl in *;
      [destruct (List.length fs =? 0); simpl in *|];
      apply app_inv_head in Hpending; discriminate.
  - exfalso.
    destruct (@settle_removes_one (mkWorld s p h t) w' k a Hstep) as (_ & Hlen & _).
    simpl in Hlen. rewrite Hpending, length_app in Hlen. simpl in Hlen. lia.
  - destruct t as [|n]; [discriminate|].
    injection Hstep as <-. run_handler.
    apply app_inv_head in Hpending. discriminate.
Qed.

Lemma search_while_loading_witness :
  isLoading (state (world_after (firstn 3 overlapping_searches))) = true /\
  step (ClickSuggestion 0) (world_after (firstn 3 overlapping_searches))
  = Some (world_after (firstn 4 overlapping_searches)) /\
  pending (world_after (firstn 4 overlapping_searches))
  = pending (world_after (firstn 3 overlapping_searches))
    ++ [Research (SuggestionItem.suggested_query sample_item) 10] /\
  exists index suggestion,
    ClickSuggestion 0 = ClickSuggestion index /\
    nth_error (suggestions (state (world_after (firstn 3 overlapping_searches)))) index
    = Some suggestion /\
    SuggestionItem.suggested_query sample_item
    = SuggestionItem.suggested_query suggestion.
Proof.
  assert (H1 : isLoading (state (world_after (firstn 3 overlapping_searches))) = true)
    by (vm_compute; reflexivity).
  assert (H2 : step (ClickSuggestion 0) (world_after (firstn 3 overlapping_searches))
               = Some (world_after (firstn 4 overlapping_searches)))
    by (vm_compute; reflexivity).
  assert (H3 : pending (world_after (firstn 4 overlapping_searches))
               = pending (world_after (firstn 3 overlapping_searches))
                 ++ [Research (SuggestionItem.suggested_query sample_item) 10])
    by (vm_compute; reflexivity).
  exact (conj H1 (conj H2 (conj H3 (@search_while_loading _ _ _ _ _ H1 H2 H3)))).
Defined.

(** X8.  In every reachable state in which [isLoading] is set, a research
    request is awaited, and it is for a query that is not blank, with ten
    sources. *)
Theorem loading_awaits_research (evs : list event) (w : World) :
  run evs initial_world = Some w ->
  isLoading (state w) = true ->
  exists k q,
    nth_error (pending w) k = Some (Research q 10) /\ trim q <> [].
Proof.
  intros Hrun Hload.
  destruct (run_session_invariant evs Hrun) as [_ _ Iload _ _ _].
  destruct (run_invariant evs Hrun) as [_ _ _ _ Ipend].
  apply Iload in Hload. apply existsb_exists in Hload.
  destruct Hload as (r & Hin & Hr).
  destruct r as [q m| |]; try discriminate.
  destruct (Ipend _ Hin) as [_ [Hq ->]].
  destruct (In_nth_error _ _ Hin) as [k Hk].
  exists k, q. auto.
Qed.

Lemma loading_awaits_research_witness :
  run search_sent initial_world = Some (world_after search_sent) /\
  isLoading (state (world_after search_sent)) = true /\
  exists k q,
    nth_error (pending (world_after search_sent)) k = Some (Research q 10) /\
    trim q <> [].
Proof.
  assert (H1 : run search_sent initial_world = Some (world_after search_sent))
    by (vm_compute; reflexivity).
  assert (H2 : isLoading (state (world_after search_sent)) = true)
    by (vm_compute; reflexivity).
  exact (conj H1 (conj H2 (loading_awaits_research search_sent H1 H2))).
Defined.

(** X9.  In every reachable state, [results] is the most recent fulfilled
    research answer, whichever request it answers, and null if a research
    request was posted after it or none was fulfilled yet. *)
Theorem results_follow_answers (evs : list event) (w : World) :
  run evs initial_world = Some w ->
  results (state w) = held_results (history w).
Proof.
  intros Hrun. destruct (run_invariant evs Hrun) as [_ _ Ires _ _]. exact Ires.
Qed.

Lemma results_follow_answers_witness :
  run overlapping_searches initial_world = Some (world_after overlapping_searches) /\
  results (state (world_after overlapping_searches))
  = held_results (history (world_after overlapping_searches)).
Proof.
  assert (H : run overlapping_searches initial_world
              = Some (world_after overlapping_searches))
    by (vm_compute; reflexivity).
  exact (conj H (results_follow_answers overlapping_searches H)).
Defined.

(** X10.  Every request the component has posted is well formed: a research
    request carries a query that is not blank and asks for ten sources, a
    suggestion request carries at least three code units, an upload carries
    at least one file. *)
Theorem posted_requests_well_formed (evs : list event) (w : World) (r : request) :
  run evs initial_world = Some w ->
  In (Posted r) (history w) ->
  match r with
  | Research q m => trim q <> [] /\ m = 10%N
  | Suggest q => 3 <= List.length q
  | Ingest fs => fs <> []
  end.
Proof.
  intros Hrun Hin.
  destruct (run_session_invariant evs Hrun) as [_ _ _ _ _ Ipost].
  exact (Ipost r Hin).
Qed.

Lemma posted_requests_well_formed_witness :
  run two_uploads initial_world = Some (world_after two_uploads) /\
  In (Posted (Research (lit "abc") 10)) (history (world_after two_uploads)) /\
  (trim (lit "abc") <> [] /\ 10%N = 10%N).
Proof.
  assert (H1 : run two_uploads initial_world = Some (world_after two_uploads))
    by (vm_compute; reflexivity).
  assert (H2 : In (Posted (Research (lit "abc") 10)) (history (world_after two_uploads)))
    by (vm_compute; tauto).
  exact (conj H1 (conj H2
           (posted_requests_well_formed two_uploads (Research (lit "abc") 10) H1 H2))).
Defined.

(** X11.  In every reachable state, the notices raised by [alert] are, in
    order, one for each rejected research request and one for each rejected
    upload, with the message of its kind; nothing else raises a notice (a
    failed suggestion request never does). *)
Theorem alerts_match_rejections (evs : list event) (w : World) :
  run evs initial_world = Some w ->
  alerts_raised (history w) = alerts_due (history w).
Proof.
  intros Hrun. destruct (run_session_invariant evs Hrun) as [_ _ _ _ Ial _].
  exact Ial.
Qed.

Lemma alerts_match_rejections_witness :
  run two_uploads initial_world = Some (world_after two_uploads) /\
  alerts_raised (history (world_after two_uploads))
  = alerts_due (history (world_after two_uploads)).
Proof.
  assert (H : run two_uploads initial_world = Some (world_after two_uploads))
    by (vm_compute; reflexivity).
  exact (conj H (alerts_match_rejections two_uploads H)).
Defined.

(** ** Uploads *)

(** X12.  In every reachable state, [uploadedFiles] is exactly the
    concatenation, in the order the answers arrived, of the file lists of the
    uploads answered with [success] set: nothing else adds, removes or
    reorders an entry. *)
Theorem uploaded_files_follow_answers (evs : list event) (w : World) :
  run evs initial_world = Some w ->
  uploadedFiles (state w) = uploaded_by (history w).
Proof.
  intros Hrun. destruct (run_session_invariant evs Hrun) as [_ _ _ If _ _].
  exact If.
Qed.

Lemma uploaded_files_follow_answers_witness :
  run two_uploads initial_world = Some (world_after two_uploads) /\
  uploadedFiles (state (world_after two_uploads))
  = uploaded_by (history (world_after two_uploads)).
Proof.
  assert (H : run two_uploads initial_world = Some (world_after two_uploads))
    by (vm_compute; reflexivity).
  exact (conj H (uploaded_files_follow_answers two_uploads H)).
Defined.

Lemma step_keeps_uploaded_files (e : event) (w w' : World) :
  step e w = Some w' ->
  exists added, uploadedFiles (state w') = uploadedFiles (state w) ++ added.
Proof.
  intros Hstep. destruct w as [s p h t]; simpl in *.
  destruct e as [value|key shiftKey| |index|files|k a| ]; simpl in Hstep.
  - destruct (textarea_disabled s); [discriminate|].
    injection Hstep as <-. run_handler. exists [].
    destruct (List.length value <? 3); simpl; rewrite app_nil_r; reflexivity.
  - destruct (textarea_disabled s); [discriminate|].
    injection Hstep as <-. run_handler. exists [].
    destruct (code_units_eqb key (lit "Enter") && negb shiftKey); simpl;
      [destruct (negb (truthy (trim (query s)))); simpl|];
      rewrite app_nil_r; reflexivity.
  - destruct (search_button_disabled s); [discriminate|].
    injection Hstep as <-. run_handler. exists [].
    destruct (negb (truthy (trim (query s)))); simpl; rewrite app_nil_r; reflexivity.
  - destruct (suggestions_dropdown s); [|discriminate].
    destruct (nth_error (suggestions s) index) as [sg|]; [|discriminate].
    injection Hstep as <-. run_handler. exists [].
    destruct (negb (truthy (trim (SuggestionItem.suggested_query sg)))); simpl;
      rewrite app_nil_r; reflexivity.
  - destruct (upload_button_disabled s); [discriminate|].
    injection Hstep as <-. run_handler. exists [].
    destruct files as [fs|]; simpl;
      [destruct (List.length fs =? 0); simpl|];
      rewrite app_nil_r; reflexivity.
  - destruct (nth_error p k) as [r|]; [|discriminate].
    destruct r as [q m|q|fs], a as [o|o|o]; try discriminate;
      injection Hstep as <-; run_handler;
      destruct o as [d|]; simpl;
      try (destruct (Suggestion.success d)); simpl;
      try (exists []; rewrite app_nil_r; reflexivity).
    destruct (IngestResponse.success d); simpl.
    + exists fs. reflexivity.
    + exists []. rewrite app_nil_r. reflexivity.
  - destruct t as [|n]; [discriminate|].
    injection Hstep as <-. run_handler. exists []. rewrite app_nil_r. reflexivity.
Qed.

(** X13.  The list of uploaded files only grows at its end: from any world,
    whatever events follow, the list before is a prefix of the list after. *)
Theorem uploaded_files_only_grow (evs : list event) (w w' : World) :
  run evs w = Some w' ->
  exists added, uploadedFiles (state w') = uploadedFiles (state w) ++ added.
Proof.
  revert w. induction evs as [|e evs IH]; intros w Hrun; simpl in Hrun.
  - injection Hrun as <-. exists []. rewrite app_nil_r. reflexivity.
  - destruct (step e w) as [w1|] eqn:Hstep; [|discriminate].
    destruct (step_keeps_uploaded_files e w Hstep) as [a1 H1].
    destruct (IH w1 Hrun) as [a2 H2].
    exists (a1 ++ a2). rewrite H2, H1, app_assoc. reflexivity.
Qed.

Lemma uploaded_files_only_grow_witness :
  run (skipn 4 two_uploads) (world_after (firstn 4 two_uploads))
  = Some (world_after two_uploads) /\
  exists added,
    uploadedFiles (state (world_after two_uploads))
    = uploadedFiles (state (world_after (firstn 4 two_uploads))) ++ added.
Proof.
  assert (H : run (skipn 4 two_uploads) (world_after (firstn 4 two_uploads))
              = Some (world_after two_uploads))
    by (vm_compute; reflexivity).
  exact (conj H (uploaded_files_only_grow (skipn 4 two_uploads) _ H)).
Defined.

(** X14.  In every reachable state at most one upload is awaited, and
    [isUploading] (which disables the upload button) is set exactly while
    one is. *)
Theorem one_upload_at_a_time (evs : list event) (w : World) :
  run evs initial_world = Some w ->
  List.length (filter is_ingest_request (pending w))
  = (if isUploading (state w) then 1 else 0) /\
  upload_button_disabled (state w) = existsb is_ingest_request (pending w).
Proof.
  intros Hrun. destruct (run_session_invariant evs Hrun) as [Iup _ _ _ _ _].
  split; [exact Iup|].
  unfold upload_button_disabled.
  assert (H : forall l, existsb is_ingest_request l
                        = negb (List.length (filter is_ingest_request l) =? 0)).
  { induction l as [|r l IH]; simpl; [reflexivity|].
    destruct (is_ingest_request r); simpl; [reflexivity | exact IH]. }
  rewrite H, Iup. destruct (isUploading (state w)); reflexivity.
Qed.

Lemma one_upload_at_a_time_witness :
  run upload_sent initial_world = Some (world_after upload_sent) /\
  List.length (filter is_ingest_request (pending (world_after upload_sent)))
  = (if isUploading (state (world_after upload_sent)) then 1 else 0) /\
  upload_button_disabled (state (world_after upload_sent))
  = existsb is_ingest_request (pending (world_after upload_sent)).
Proof.
  assert (H : run upload_sent initial_world = Some (world_after upload_sent))
    by (vm_compute; reflexivity).
  exact (conj H (one_upload_at_a_time upload_sent H)).
Defined.

(** X15.  In every reachable state in which the success banner is shown
    ([uploadSuccess] set), a timer is still to fire; when it fires the banner
    is hidden, and the uploaded files, the awaited requests and the history
    are as before. *)
Theorem banner_is_cleared (evs : list event) (w : World) :
  run evs initial_world = Some w ->
  uploadSuccess (state w) = true ->
  exists w',
    step TimerFires w = Some w' /\
    uploadSuccess (state w') = false /\
    uploadedFiles (state w') = uploadedFiles (state w) /\
    pending w' = pending w /\
    history w' = history w.
Proof.
  intros Hrun Hban.
  destruct (run_session_invariant evs Hrun) as [_ Iban _ _ _ _].
  specialize (Iban Hban). destruct w as [s p h t]; simpl in *.
  destruct t as [|n]; [lia|].
  eexists. split; [reflexivity|]. run_handler.
  repeat apply conj; try reflexivity. apply app_nil_r.
Qed.

Lemma banner_is_cleared_witness :
  run (removelast plain_session) initial_world
  = Some (world_after (removelast plain_session)) /\
  uploadSuccess (state (world_after (removelast plain_session))) = true /\
  exists w',
    step TimerFires (world_after (removelast plain_session)) = Some w' /\
    uploadSuccess (state w') = false.
Proof.
  assert (H1 : run (removelast plain_session) initial_world
               = Some (world_after (removelast plain_session)))
    by (vm_compute; reflexivity).
  assert (H2 : uploadSuccess (state (world_after (removelast plain_session))) = true)
    by (vm_compute; reflexivity).
  split; [exact H1|]. split; [exact H2|].
  destruct (banner_is_cleared (removelast plain_session) H1 H2)
    as (w' & Hstep & Hban & _).
  exists w'. auto.
Defined.

(** ** The send button and the backend address *)

(** X16.  The send button is disabled exactly when a search is awaited or
    the query consists of white space only (the empty query included). *)
Theorem search_button_disabled_iff (s : AppState) :
  search_button_disabled s = isLoading s || forallb is_white_space (query s).
Proof.
  unfold search_button_disabled. f_equal.
  destruct (forallb is_white_space (query s)) eqn:Hws.
  - apply trim_blank in Hws. rewrite Hws. reflexivity.
  - destruct (trim (query s)) as [|c t] eqn:Ht; [|reflexivity].
    apply trim_blank in Ht. congruence.
Qed.

(** X17.  The base address is never empty: it is the environment variable
    when that is set to a string that is not empty, and
    [http://localhost:8000] when the variable is unset or empty, so that with
    no setting the three requests go to [http://localhost:8000/research],
    [/suggest] and [/ingest]. *)
Theorem base_url_fallback (REACT_APP_API_URL : option jsstring) :
  API_BASE_URL REACT_APP_API_URL <> [] /\
  (forall url, REACT_APP_API_URL = Some url -> url <> [] ->
               API_BASE_URL REACT_APP_API_URL = url) /\
  (REACT_APP_API_URL = None \/ REACT_APP_API_URL = Some [] ->
   API_BASE_URL REACT_APP_API_URL = lit "http://localhost:8000" /\
   forall q m fs,
     request_url REACT_APP_API_URL (Research q m) = lit "http://localhost:8000/research" /\
     request_url REACT_APP_API_URL (Suggest q) = lit "http://localhost:8000/suggest" /\
     request_url REACT_APP_API_URL (Ingest fs) = lit "http://localhost:8000/ingest").
Proof.
  repeat apply conj.
  - destruct REACT_APP_API_URL as [[|c url]|]; simpl; discriminate.
  - intros url -> Hurl. destruct url; [congruence | reflexivity].
  - intros [-> | ->]; (split; [reflexivity|]); intros q m fs;
      repeat apply conj; reflexivity.
Qed.

(** ** Export, the remaining cases *)

(** X18.  With a result, every format yields one file, named
    [research-report.] followed by the format and typed [text/plain]; the
    three formats give three different names, and the [json] file holds what
    [JSON.stringify] returns for the whole result with indentation 2. *)
Theorem export_file_names (JSON_stringify : ResearchResult.t -> N -> jsstring)
    (s : AppState) (r : ResearchResult.t) (fmt : format) :
  results s = Some r ->
  exists d,
    exportReport JSON_stringify s fmt = Some d /\
    download d = lit "research-report." ++ format_name fmt /\
    blob_type d = lit "text/plain" /\
    (fmt = json -> blob d = JSON_stringify r 2%N) /\
    (forall fmt' d',
        exportReport JSON_stringify s fmt' = Some d' ->
        download d' = download d -> fmt' = fmt).
Proof.
  intros Hr. unfold exportReport. rewrite Hr. eexists.
  split; [reflexivity|]. simpl. repeat apply conj; try reflexivity.
  - intros ->. reflexivity.
  - intros fmt' d' Hd' Hname. injection Hd' as <-.
    destruct fmt, fmt'; try reflexivity; vm_compute in Hname; discriminate.
Qed.

Lemma export_file_names_witness :
  results showing_sample = Some sample_result /\
  exists d,
    exportReport (fun _ _ => lit "{}") showing_sample json = Some d /\
    download d = lit "research-report.json" /\
    blob_type d = lit "text/plain" /\
    blob d = lit "{}".
Proof.
  assert (H : results showing_sample = Some sample_result) by reflexivity.
  split; [exact H|].
  destruct (export_file_names (fun _ _ => lit "{}") showing_sample json H)
    as (d & Hd & Hname & Htype & Hblob & _).
  exists d. repeat apply conj; auto.
Defined.

(** X19.  For a result with no finding, the exported text ends with the
    [## Key Findings] line and its line break: after that line comes one
    empty line and no bullet. *)
Theorem export_without_findings (r : ResearchResult.t) :
  ResearchReport.key_findings (ResearchResult.research_report r) = [] ->
  report_text r
  = lit "# Research Report" ++ NL ++ NL
    ++ ResearchReport.summary (ResearchResult.research_report r)
    ++ NL ++ NL ++ lit "## Key Findings" ++ NL /\
  split_lines (report_text r)
  = [lit "# Research Report"; []]
    ++ split_lines (ResearchReport.summary (ResearchResult.research_report r))
    ++ [[]; lit "## Key Findings"; []].
Proof.
  intros Hnone. unfold report_text. rewrite Hnone. simpl join.
  split; [rewrite app_nil_r; reflexivity|].
  set (summary := ResearchReport.summary (ResearchResult.research_report r)).
  change (split_lines
            (lit "# Research Report" ++ LF ::
             ([] ++ LF ::
              (summary ++ LF ::
               ([] ++ LF ::
                (lit "## Key Findings" ++ LF :: [])))))
          = [lit "# Research Report"; []] ++ split_lines summary
            ++ [[]; lit "## Key Findings"; []]).
  rewrite !split_lines_break.
  assert (H1 : split_lines (lit "# Research Report") = [lit "# Research Report"])
    by (vm_compute; reflexivity).
  assert (H2 : split_lines (lit "## Key Findings") = [lit "## Key Findings"])
    by (vm_compute; reflexivity).
  rewrite H1, H2. reflexivity.
Qed.

Lemma export_without_findings_witness :
  ResearchReport.key_findings (ResearchResult.research_report bare_result) = [] /\
  split_lines (report_text bare_result)
  = [ lit "# Research Report"; []; lit "Nothing found."; [];
      lit "## Key Findings"; [] ].
Proof.
  assert (H : ResearchReport.key_findings (ResearchResult.research_report bare_result) = [])
    by reflexivity.
  split; [exact H|].
  rewrite (proj2 (export_without_findings bare_result H)).
  vm_compute. reflexivity.
Defined.

(** ** Export as JSON *)

Lemma number_read_back (x : number) :
  as_number (number_to_json x) = if is_finite x then Some x else None.
Proof. unfold number_to_json. destruct (is_finite x); reflexivity. Qed.

Lemma strings_read_back (l : list jsstring) :
  read_all as_string (map JString l) = Some l.
Proof.
  induction l as [|s l IH]; simpl; [reflexivity|]. rewrite IH. reflexivity.
Qed.

Lemma source_read_back (src : Source.t) :
  source_from_json (source_to_json src)
  = if is_finite (Source.relevance_score src) then Some src else None.
Proof.
  destruct src as [t c x]. unfold source_from_json, source_to_json, field.
  cbn. rewrite number_read_back. destruct (is_finite x); reflexivity.
Qed.

Lemma sources_read_back (l : list Source.t) :
  read_all source_from_json (map source_to_json l)
  = if forallb (fun src => is_finite (Source.relevance_score src)) l
    then Some l else None.
Proof.
  induction l as [|src l IH]; [reflexivity|].
  cbn [map read_all forallb]. rewrite source_read_back, IH.
  destruct (is_finite (Source.relevance_score src)); [|reflexivity].
  destruct (forallb _ l); reflexivity.
Qed.

Lemma report_read_back (report : ResearchReport.t) :
  report_from_json (report_to_json report)
  = if is_finite (ResearchReport.confidence_score report)
       && forallb (fun src => is_finite (Source.relevance_score src))
                  (ResearchReport.sources report)
    then Some report else None.
Proof.
  destruct report as [s f x l]. unfold report_from_json, report_to_json, field.
  cbn. rewrite strings_read_back, number_read_back, sources_read_back.
  destruct (is_finite x); [|reflexivity].
  destruct (forallb _ l); reflexivity.
Qed.

(** Reading back the value written for a result gives the result when all
    its numbers are finite, and nothing otherwise. *)
Lemma result_read_back (r : ResearchResult.t) :
  result_from_json (result_to_json r)
  = if finite_numbers r then Some r else None.
Proof.
  destruct r as [b report t n k].
  unfold result_from_json, result_to_json, finite_numbers, field.
  cbn -[report_from_json report_to_json number_to_json as_number].
  rewrite report_read_back, !number_read_back.
  destruct (is_finite t), (is_finite n), (is_finite k); cbn;
    try (destruct (_ && _); reflexivity).
Qed.




(** ** An upload that is answered with [success] unset *)

(** C10, as stated, fails: the backend answers an upload with a 2xx response
    whose [success] is false; no file is added, [isUploading] is cleared, and
    no notice is raised. *)
Lemma upload_refused_is_silent :
  run upload_refused initial_world = Some (world_after upload_refused) /\
  uploadedFiles (state (world_after upload_refused)) = [] /\
  isUploading (state (world_after upload_refused)) = false /\
  alerts_raised (history (world_after upload_refused)) = [] /\
  existsb is_alert (history (world_after upload_refused)) = false.
Proof. repeat apply conj; vm_compute; reflexivity. Qed.
